(** * Project mutation service

    A shallow embedding of [src/services/project/project-mutation.service.ts]
    and the properties of its four exported operations
    ([createNewProject], [updateProject], [updateProjectStatus],
    [deleteProject]).

    The service is glue code: every operation is a short sequence of awaited
    calls to two collaborators (the [supabase] query builder and the image
    helpers of [project-image.service]).  The operations are therefore
    modelled as finite interaction programs ([prog]) over the calls they
    await; [run] executes such a program against an arbitrary environment
    that answers the calls, and records the calls in the order in which they
    are issued.  Every theorem quantifies over the environment. *)

From stdpp Require Import base option list strings gmap fin_maps.

Local Open Scope string_scope.
Set Warnings "-register-all".

(** ** JavaScript values *)

Module Js.

(** The values that flow through the service: project columns are text,
    text arrays and dates (serialised as strings); [projectData.image] is a
    [File] object, kept opaque and identified by a name. *)
Inductive value : Type :=
| VUndefined
| VNull
| VBool (b : bool)
| VStr (s : string)
| VArr (items : list value)
| VFile (name : string).

(** A plain object ([projectData], a row of the [projects] table, an insert
    or update payload): its own enumerable properties. *)
Abbreviation object := (gmap string value).

(** [ToBoolean]: what [if (v)], [!v] and [v || d] test. *)
Definition truthy (v : value) : bool :=
  match v with
  | VUndefined | VNull => false
  | VBool b => b
  | VStr s => negb (String.eqb s EmptyString)
  | VArr _ | VFile _ => true
  end.

(** [o.k]: reading a property that the object does not have gives
    [undefined]. *)
Definition get (k : string) (o : object) : value :=
  default VUndefined (o !! k).

(** [a || b] *)
Definition or_else (a b : value) : value := if truthy a then a else b.

(** [typeof v === 'string'] *)
Definition is_string (v : value) : bool :=
  match v with VStr _ => true | _ => false end.

(** [v === s] for a string [s]: strict equality never converts. *)
Definition strict_eq_str (v : value) (s : string) : bool :=
  match v with VStr t => String.eqb t s | _ => false end.

(** [hay.includes(needle)] on strings. *)
Definition str_includes (hay needle : string) : bool :=
  match String.index 0 needle hay with Some _ => true | None => false end.

(** What [v?.includes(s)] does for a string [s], by the kind of [v]. *)
Inductive includes_result : Type :=
| IncShort                (* [v] is null or undefined: [undefined] *)
| IncBool (b : bool)      (* an array or a string: the answer *)
| IncNotAFunction.        (* [v.includes] is not callable *)

Definition opt_includes (v : value) (s : string) : includes_result :=
  match v with
  | VUndefined | VNull => IncShort
  | VArr items => IncBool (existsb (fun x => strict_eq_str x s) items)
  | VStr hay => IncBool (str_includes hay s)
  | VBool _ | VFile _ => IncNotAFunction
  end.

End Js.

Import Js.

(** ** Collaborators and the calls awaited on them *)

(** An error value reported by a collaborator (the [error] of a supabase
    reply, or the reason an awaited promise rejects with). *)
Inductive remote_error : Type :=
| RemoteError (message : string).

(** What the service can throw. *)
Inductive exn : Type :=
| Error (message : string)      (* [throw new Error(message)] *)
| TypeError                     (* a property read on [null], a call of a non-function *)
| Remote (e : remote_error).    (* a collaborator's error, rethrown unchanged *)

(** The supabase query builder: [from(table)], one verb, an optional filter,
    an optional [.select(columns)] after a write, and the cardinality
    modifier. *)
Inductive verb : Type :=
| SelectRows (columns : string)
| InsertRows (rows : list object)
| UpdateRows (payload : object)
| DeleteRows.

Inductive condition : Type :=
| ByEq (column value : string)
| ByMatch (query : object).

Inductive cardinality : Type :=
| Rows
| Single
| MaybeSingle.

Record query : Type := Query {
  q_table : string;
  q_verb : verb;
  q_filter : option condition;
  q_returning : option string;
  q_cardinality : cardinality
}.

Inductive call : Type :=
| UploadProjectImage (userId : string) (image : value)
| DeleteProjectImage (imageUrl : value)
| Supabase (q : query).

(** The [{ data, error }] pair every supabase call resolves to. *)
Record store_reply : Type := StoreReply {
  data : option object;
  error : option remote_error
}.

(** What an awaited call resolves to.

    Modelled from the spec: the two image helpers live in
    [project-image.service], which is not part of the sources; their
    signatures are [upload(ownerId, file) -> url: string] and
    [delete(url) -> void], and both may fail. *)
Definition reply (c : call) : Type :=
  match c with
  | UploadProjectImage _ _ => string
  | DeleteProjectImage _ => unit
  | Supabase _ => store_reply
  end.

(** ** Programs *)

Inductive prog (A : Type) : Type :=
| Ret (a : A)
| Throw (e : exn)
| Await (c : call) (k : reply c → prog A)
| ConsoleError (message : string) (e : remote_error) (k : prog A).

Arguments Ret {A} a.
Arguments Throw {A} e.
Arguments Await {A} c k.
Arguments ConsoleError {A} message e k.

Fixpoint bind {A B : Type} (p : prog A) (f : A → prog B) : prog B :=
  match p with
  | Ret a => f a
  | Throw e => Throw e
  | Await c k => Await c (λ r, bind (k r) f)
  | ConsoleError m e k => ConsoleError m e (bind k f)
  end.

#[export] Instance prog_ret : MRet prog := @Ret.
#[export] Instance prog_bind : MBind prog := λ A B f p, bind p f.

Definition await (c : call) : prog (reply c) := Await c Ret.
Definition throw {A : Type} (e : exn) : prog A := Throw e.
Definition console_error (message : string) (e : remote_error) : prog unit :=
  ConsoleError message e (Ret tt).

(** ** Running a program *)

Inductive event : Type :=
| Called (c : call)
| Logged (message : string) (e : remote_error).

Inductive outcome (A : Type) : Type :=
| Returned (a : A)
| Threw (e : exn).

Arguments Returned {A} a.
Arguments Threw {A} e.

(** The environment answers a call, given everything that happened before
    it: the awaited promise either rejects or resolves. *)
Definition env : Type := list event → ∀ c : call, remote_error + reply c.

Fixpoint run {A : Type} (E : env) (h : list event) (p : prog A)
  : list event * outcome A :=
  match p with
  | Ret a => (h, Returned a)
  | Throw e => (h, Threw e)
  | Await c k =>
      match E h c with
      | inl e => ((h ++ [Called c])%list, Threw (Remote e))
      | inr r => run E (h ++ [Called c])%list (k r)
      end
  | ConsoleError m e k => run E (h ++ [Logged m e])%list k
  end.

Definition exec {A : Type} (E : env) (p : prog A) : list event * outcome A :=
  run E [] p.

(** ** The service *)

Definition projects (v : verb) (f : option condition) (ret : option string)
    (c : cardinality) : call :=
  Supabase (Query "projects" v f ret c).

(** [if (error) throw error; return data;] *)
Definition unwrap (r : store_reply) : prog (option object) :=
  match error r with
  | Some e => throw (Remote e)
  | None => mret (data r)
  end.

(** The record [createNewProject] builds for the insert. *)
Definition newProject (userId : string) (projectData : object)
    (imageUrl : value) : object :=
  <["title" := get "title" projectData]>
  (<["description" := get "description" projectData]>
  (<["status" := or_else (get "status" projectData) (VStr "planning")]>
  (<["timeline_status" :=
       or_else (get "timeline_status" projectData) (VStr "ongoing")]>
  (<["start_date" := or_else (get "start_date" projectData) VNull]>
  (<["end_date" := or_else (get "end_date" projectData) VNull]>
  (<["created_by" := VStr userId]>
  (<["members" := or_else (get "members" projectData) (VArr [])]>
  (<["image_url" := imageUrl]> ∅)))))))).

Definition createNewProject (userId : string) (projectData : object)
  : prog (option object) :=
  if negb (truthy (VStr userId))
  then throw (Error "User ID is required to create a project")
  else
    imageUrl ←
      (if truthy (get "image" projectData)
       then url ← await (UploadProjectImage userId (get "image" projectData));
            mret (VStr url)
       else mret VNull);
    r ← await (projects (InsertRows [newProject userId projectData imageUrl])
                 None (Some "*") Single);
    unwrap r.

(** The guard of [updateProject]:
    [existingProject.created_by !== userId &&
     !existingProject.members?.includes(userId)]. *)
Definition checkPermission (existingProject : object) (userId : string)
  : prog unit :=
  if strict_eq_str (get "created_by" existingProject) userId
  then mret tt
  else
    match opt_includes (get "members" existingProject) userId with
    | IncShort => throw (Error "You don't have permission to update this project")
    | IncBool true => mret tt
    | IncBool false =>
        throw (Error "You don't have permission to update this project")
    | IncNotAFunction => throw TypeError
    end.

(** [{ ...projectData, image_url: imageUrl }] followed by
    [delete updateData.image]. *)
Definition updateData (projectData : object) (imageUrl : value) : object :=
  delete "image" (<["image_url" := imageUrl]> projectData).

Definition updateProject (projectId userId : string) (projectData : object)
  : prog (option object) :=
  if negb (truthy (VStr projectId))
  then throw (Error "Project ID is required to update a project")
  else if negb (truthy (VStr userId))
  then throw (Error "User ID is required to update a project")
  else
    fetched ← await (projects (SelectRows "*") (Some (ByEq "id" projectId))
                       None Single);
    match error fetched with
    | Some fetchError => throw (Remote fetchError)
    | None =>
        match data fetched with
        | None => throw TypeError
        | Some existingProject =>
            checkPermission existingProject userId;;
            imageUrl ←
              (let imageUrl := get "image_url" existingProject in
               if truthy (get "image" projectData)
               then
                 (if truthy imageUrl
                  then await (DeleteProjectImage imageUrl)
                  else mret tt);;
                 url ← await (UploadProjectImage userId
                                (get "image" projectData));
                 mret (VStr url)
               else mret imageUrl);
            r ← await (projects (UpdateRows (updateData projectData imageUrl))
                         (Some (ByEq "id" projectId)) (Some "*") Single);
            unwrap r
        end
    end.

Definition updateProjectStatus (projectId status : string)
  : prog (option object) :=
  r ← await (projects (UpdateRows {[ "status" := VStr status ]})
               (Some (ByMatch {[ "id" := VStr projectId ]})) (Some "*") Single);
  unwrap r.

Definition deleteProject (projectId : string) : prog bool :=
  fetched ← await (projects (SelectRows "*") (Some (ByEq "id" projectId))
                     None MaybeSingle);
  match error fetched with
  | Some fetchError =>
      console_error "Error fetching project for deletion:" fetchError;;
      throw (Remote fetchError)
  | None =>
      (match data fetched with
       | Some project =>
           if truthy (get "image_url" project)
              && is_string (get "image_url" project)
           then await (DeleteProjectImage (get "image_url" project))
           else mret tt
       | None => mret tt
       end);;
      r ← await (projects DeleteRows (Some (ByEq "id" projectId)) None Rows);
      match error r with
      | Some e =>
          console_error "Error deleting project:" e;;
          throw (Remote e)
      | None => mret true
      end
  end.

(** ** Error taxonomy

    The service throws plain [Error] objects; the specification names them
    by the site that throws them. *)

Definition ValidationError (e : exn) : Prop :=
  e = Error "User ID is required to create a project"
  ∨ e = Error "Project ID is required to update a project"
  ∨ e = Error "User ID is required to update a project".

Definition AuthorizationError (e : exn) : Prop :=
  e = Error "You don't have permission to update this project".

Definition StoreError (e : exn) : Prop :=
  ∃ r, e = Remote r.

(** ** Observing a trace *)

Definition is_store_call (ev : event) : bool :=
  match ev with Called (Supabase _) => true | _ => false end.

Definition is_image_call (ev : event) : bool :=
  match ev with
  | Called (UploadProjectImage _ _) | Called (DeleteProjectImage _) => true
  | _ => false
  end.

(** The rows of the insert calls of a trace, the payloads of its update
    calls, and the urls handed to [deleteProjectImage]. *)
Definition inserted_by (ev : event) : list (list object) :=
  match ev with
  | Called (Supabase q) =>
      match q_verb q with InsertRows rows => [rows] | _ => [] end
  | _ => []
  end.

Definition updated_by (ev : event) : list object :=
  match ev with
  | Called (Supabase q) =>
      match q_verb q with UpdateRows payload => [payload] | _ => [] end
  | _ => []
  end.

Definition image_deleted_by (ev : event) : list value :=
  match ev with
  | Called (DeleteProjectImage url) => [url]
  | _ => []
  end.

Definition inserts (t : list event) : list (list object) :=
  t ≫= inserted_by.
Definition update_payloads (t : list event) : list object :=
  t ≫= updated_by.
Definition image_deletes (t : list event) : list value :=
  t ≫= image_deleted_by.

(** A property of [projectData] is left unspecified: reading it gives
    [undefined]. *)
Definition unspecified (k : string) (o : object) : Prop :=
  get k o = VUndefined.

(** A call fails: the awaited promise rejects, or the reply carries an
    error. *)
Definition fails_with (x : remote_error + store_reply) (e : remote_error)
  : Prop :=
  match x with
  | inl e' => e' = e
  | inr r => error r = Some e
  end.

(** ** Who may update a project *)

(** [userId] is one of the ids that the [members] array lists. *)
Definition listed (userId : string) (members : value) : Prop :=
  match members with
  | VArr items => VStr userId ∈ items
  | _ => False
  end.

(** Modelled from the spec: the type of the [members] column (the table's
    declaration is not part of the sources): a sequence of user ids, or
    nothing. *)
Definition members_column (members : value) : Prop :=
  match members with
  | VUndefined | VNull | VArr _ => True
  | _ => False
  end.

Definition authorized (userId : string) (existingProject : object) : Prop :=
  get "created_by" existingProject = VStr userId
  ∨ listed userId (get "members" existingProject).

(** The url [updateProject] resolves for the payload: the uploaded one when
    [projectData] carries an image, the stored one otherwise. *)
Definition resolved (E : env) (userId : string)
    (projectData existingProject : object) (imageUrl : value) : Prop :=
  if truthy (get "image" projectData)
  then ∃ h url,
      E h (UploadProjectImage userId (get "image" projectData)) = inr url
      ∧ imageUrl = VStr url
  else imageUrl = get "image_url" existingProject.

(** The url a run of [updateProject] resolved, given the events [h] of the
    run that come before its update call: with an image in [projectData],
    the url that the upload just before the update resolved to, answered
    after the events before it; without one, the fetched record's
    [image_url]. *)
Definition resolved_in_run (E : env) (userId : string)
    (projectData existingProject : object) (h : list event)
    (imageUrl : value) : Prop :=
  let upload := UploadProjectImage userId (get "image" projectData) in
  if truthy (get "image" projectData)
  then ∃ h0 url,
      h = (h0 ++ [Called upload])%list
      ∧ E h0 upload = inr url
      ∧ imageUrl = VStr url
  else imageUrl = get "image_url" existingProject.

(** The old image is deleted first: the trace of [updateProject] goes on
    after the fetch with the image-delete of the stored url; when that call
    rejects the run ends there with its error, and otherwise the upload of
    the new image is the next call. *)
Definition deletes_old_image_first (E : env) (projectId userId : string)
    (projectData existingProject : object) : Prop :=
  let fetch :=
    projects (SelectRows "*") (Some (ByEq "id" projectId)) None Single in
  let remove := DeleteProjectImage (get "image_url" existingProject) in
  let upload := UploadProjectImage userId (get "image" projectData) in
  ∃ t o,
    exec E (updateProject projectId userId projectData)
      = (Called fetch :: Called remove :: t, o)
    ∧ match E [Called fetch] remove with
      | inl e => t = [] ∧ o = Threw (Remote e)
      | inr _ => ∃ t', t = Called upload :: t'
      end.

(** ** Sample collaborators

    An environment that answers every call the same way whatever happened
    before: [upload] and [unlink] are the results of the two image helpers,
    [read] the reply to a select and [write] the reply to an insert, update
    or delete. *)
Definition scripted (upload : remote_error + string)
    (unlink : remote_error + unit) (read write : store_reply) : env :=
  λ _ c,
    match c return remote_error + reply c with
    | UploadProjectImage _ _ => upload
    | DeleteProjectImage _ => unlink
    | Supabase q =>
        inr (match q_verb q with SelectRows _ => read | _ => write end)
    end.

Definition ok (row : option object) : store_reply := StoreReply row None.
Definition failed (message : string) : store_reply :=
  StoreReply None (Some (RemoteError message)).

(** A stored project owned by "u1", with "u3" as its only member. *)
Definition project_p1 (image_url : value) : object :=
  {[ "id" := VStr "p1"; "title" := VStr "A"; "created_by" := VStr "u1";
     "members" := VArr [VStr "u3"]; "image_url" := image_url ]}.

(** ** More observations of a trace *)

Definition image_uploaded_by (ev : event) : list (string * value) :=
  match ev with
  | Called (UploadProjectImage userId image) => [(userId, image)]
  | _ => []
  end.

Definition queried_by (ev : event) : list query :=
  match ev with
  | Called (Supabase q) => [q]
  | _ => []
  end.

Definition logged_by (ev : event) : list (string * remote_error) :=
  match ev with
  | Logged message e => [(message, e)]
  | _ => []
  end.

Definition image_uploads (t : list event) : list (string * value) :=
  t ≫= image_uploaded_by.
Definition queries (t : list event) : list query :=
  t ≫= queried_by.
Definition logs (t : list event) : list (string * remote_error) :=
  t ≫= logged_by.

(** How an awaited store call followed by [if (error) throw error;
    return data;] ends, by the answer to the call. *)
Definition settled (x : remote_error + store_reply)
  : outcome (option object) :=
  match x with
  | inl e => Threw (Remote e)
  | inr r =>
      match error r with
      | Some e => Threw (Remote e)
      | None => Returned (data r)
      end
  end.

(** The properties of the object literal that [createNewProject] inserts. *)
Definition newProject_keys : gset string :=
  {[ "title"; "description"; "status"; "timeline_status"; "start_date";
     "end_date"; "created_by"; "members"; "image_url" ]}.

(** The properties that [createNewProject] reads with a [||] default. *)
Definition default_of (k : string) : option value :=
  if decide (k = "status") then Some (VStr "planning")
  else if decide (k = "timeline_status") then Some (VStr "ongoing")
  else if decide (k = "start_date") then Some VNull
  else if decide (k = "end_date") then Some VNull
  else if decide (k = "members") then Some (VArr [])
  else None.

(** * Properties *)

(** ** Running programs *)

Section Run.
Context {A B : Type}.

Lemma run_bind (E : env) (p : prog A) (f : A → prog B) (h : list event) :
  run E h (p ≫= f) =
  match run E h p with
  | (h', Returned a) => run E h' (f a)
  | (h', Threw e) => (h', Threw e)
  end.
Proof.
  revert h. induction p as [a|e|c k IH|m e k IH]; intros h; cbn.
  - reflexivity.
  - reflexivity.
  - destruct (E h c) as [e|r]; [reflexivity|]. apply IH.
  - apply IH.
Qed.

(** A run only ever appends to the history. *)
Lemma run_extends (E : env) (p : prog A) (h : list event) :
  ∃ t, (run E h p).1 = (h ++ t)%list.
Proof.
  revert h. induction p as [a|e|c k IH|m e k IH]; intros h; cbn.
  - exists []. by rewrite app_nil_r.
  - exists []. by rewrite app_nil_r.
  - destruct (E h c) as [e|r].
    + by exists [Called c].
    + destruct (IH r (h ++ [Called c])%list) as [t Ht].
      exists (Called c :: t). by rewrite Ht, <- app_assoc.
  - destruct (IH (h ++ [Logged m e])%list) as [t Ht].
    exists (Logged m e :: t). by rewrite Ht, <- app_assoc.
Qed.

End Run.

Lemma truthy_str (s : string) : truthy (VStr s) = true ↔ s ≠ EmptyString.
Proof.
  cbn. destruct (String.eqb_spec s EmptyString); cbn; split; congruence.
Qed.

Lemma or_unspecified (k : string) (o : object) (d : value) :
  unspecified k o → or_else (get k o) d = d.
Proof. unfold unspecified, or_else. by intros ->. Qed.

(** ** createNewProject *)

(** C3. A call of [createNewProject] with an empty [userId] throws the
    "User ID is required" error, a [ValidationError], before anything is
    awaited: the trace holds no store call and no image call. *)
Theorem createNewProject_empty_userId (E : env) (projectData : object) :
  ∃ e, exec E (createNewProject EmptyString projectData) = ([], Threw e)
       ∧ ValidationError e
       ∧ Forall (λ ev, is_store_call ev = false ∧ is_image_call ev = false)
           (exec E (createNewProject EmptyString projectData)).1.
Proof.
  exists (Error "User ID is required to create a project").
  split; [reflexivity|]. split; [by left|]. constructor.
Qed.

(** The fields of the record built for the insert when [projectData] leaves
    the defaulted properties out. *)
Lemma newProject_defaults (userId : string) (projectData : object)
    (imageUrl : value) :
  unspecified "status" projectData →
  unspecified "timeline_status" projectData →
  unspecified "start_date" projectData →
  unspecified "end_date" projectData →
  unspecified "members" projectData →
  let record := newProject userId projectData imageUrl in
  record !! "status" = Some (VStr "planning")
  ∧ record !! "timeline_status" = Some (VStr "ongoing")
  ∧ record !! "start_date" = Some VNull
  ∧ record !! "end_date" = Some VNull
  ∧ record !! "members" = Some (VArr [])
  ∧ record !! "created_by" = Some (VStr userId)
  ∧ record !! "image_url" = Some imageUrl.
Proof.
  intros Hs Ht Hsd Hed Hm record. subst record. unfold newProject.
  rewrite !or_unspecified by assumption.
  repeat split; by simplify_map_eq.
Qed.

(** Every run of [createNewProject] that returns has awaited exactly one
    insert, of the single record [newProject] with the resolved image url. *)
Lemma createNewProject_returns (E : env) (userId : string)
    (projectData : object) (t : list event) (row : option object) :
  exec E (createNewProject userId projectData) = (t, Returned row) →
  ∃ imageUrl, inserts t = [[newProject userId projectData imageUrl]]
              ∧ update_payloads t = [] ∧ image_deletes t = [].
Proof.
  unfold exec, createNewProject.
  destruct (truthy (VStr userId)); cbn; [|discriminate].
  destruct (truthy (get "image" projectData)); cbn.
  - destruct (E [] _) as [e|url]; cbn; [discriminate|].
    destruct (E [_] _) as [e|[d [e|]]]; cbn; try discriminate.
    intros [= <- <-]. by exists (VStr url).
  - destruct (E [] _) as [e|[d [e|]]]; cbn; try discriminate.
    intros [= <- <-]. by exists VNull.
Qed.

(** C2. When [createNewProject] succeeds on a [projectData] that leaves
    [status], [timeline_status], [start_date], [end_date] and [members]
    unspecified, the one record sent to the store insert has status
    "planning", timeline_status "ongoing", null start and end dates, an
    empty members array, and [created_by] equal to the [userId] argument. *)
Theorem createNewProject_defaults (E : env) (userId : string)
    (projectData : object) (t : list event) (row : option object) :
  unspecified "status" projectData →
  unspecified "timeline_status" projectData →
  unspecified "start_date" projectData →
  unspecified "end_date" projectData →
  unspecified "members" projectData →
  exec E (createNewProject userId projectData) = (t, Returned row) →
  ∃ record : object,
    inserts t = [[record]]
    ∧ record !! "status" = Some (VStr "planning")
    ∧ record !! "timeline_status" = Some (VStr "ongoing")
    ∧ record !! "start_date" = Some VNull
    ∧ record !! "end_date" = Some VNull
    ∧ record !! "members" = Some (VArr [])
    ∧ record !! "created_by" = Some (VStr userId).
Proof.
  intros Hs Ht Hsd Hed Hm Hrun.
  destruct (createNewProject_returns _ _ _ _ _ Hrun) as (imageUrl & Hins & _).
  exists (newProject userId projectData imageUrl). split; [exact Hins|].
  destruct (newProject_defaults userId projectData imageUrl Hs Ht Hsd Hed Hm)
    as (? & ? & ? & ? & ? & ? & _).
  auto 10.
Qed.

Lemma createNewProject_defaults_witness :
  ∃ record : object,
    inserts (exec (scripted (inr "img/1") (inr tt) (ok None) (ok (Some ∅)))
               (createNewProject "u1" {[ "title" := VStr "A" ]})).1
      = [[record]]
    ∧ record !! "status" = Some (VStr "planning")
    ∧ record !! "timeline_status" = Some (VStr "ongoing")
    ∧ record !! "start_date" = Some VNull
    ∧ record !! "end_date" = Some VNull
    ∧ record !! "members" = Some (VArr [])
    ∧ record !! "created_by" = Some (VStr "u1").
Proof.
  apply (createNewProject_defaults
           (scripted (inr "img/1") (inr tt) (ok None) (ok (Some ∅)))
           "u1" {[ "title" := VStr "A" ]} _ (Some ∅)); reflexivity.
Defined.

(** C8. When the image upload succeeds and the insert that follows fails,
    [createNewProject] throws the store's error unchanged (a [StoreError]);
    the trace is the upload followed by the insert, so the uploaded asset is
    left in place: no image-delete call is made. *)
Theorem createNewProject_insert_failure (E : env) (userId url : string)
    (projectData : object) (e : remote_error) :
  let upload := UploadProjectImage userId (get "image" projectData) in
  let insert :=
    projects (InsertRows [newProject userId projectData (VStr url)])
      None (Some "*") Single in
  userId ≠ EmptyString →
  truthy (get "image" projectData) = true →
  E [] upload = inr url →
  fails_with (E [Called upload] insert) e →
  exec E (createNewProject userId projectData)
    = ([Called upload; Called insert], Threw (Remote e))
  ∧ StoreError (Remote e)
  ∧ image_deletes (exec E (createNewProject userId projectData)).1 = [].
Proof.
  intros upload insert Hu Himg Hup Hins.
  assert (exec E (createNewProject userId projectData)
          = ([Called upload; Called insert], Threw (Remote e))) as Hrun.
  { unfold exec, createNewProject.
    apply truthy_str in Hu. rewrite Hu, Himg. cbn.
    fold upload. rewrite Hup. cbn. fold insert.
    destruct (E [Called upload] insert) as [e'|[d err]]; cbn in *.
    - by subst.
    - by subst. }
  rewrite Hrun. repeat split. by exists e.
Qed.

Lemma createNewProject_insert_failure_witness :
  exec (scripted (inr "img/1") (inr tt) (ok None) (failed "insert rejected"))
       (createNewProject "u1" {[ "title" := VStr "A"; "image" := VFile "a.png" ]})
    = ([Called (UploadProjectImage "u1" (VFile "a.png"));
        Called (projects
                  (InsertRows
                     [newProject "u1"
                        {[ "title" := VStr "A"; "image" := VFile "a.png" ]}
                        (VStr "img/1")])
                  None (Some "*") Single)],
       Threw (Remote (RemoteError "insert rejected")))
  ∧ StoreError (Remote (RemoteError "insert rejected"))
  ∧ image_deletes
      (exec (scripted (inr "img/1") (inr tt) (ok None)
               (failed "insert rejected"))
         (createNewProject "u1"
            {[ "title" := VStr "A"; "image" := VFile "a.png" ]})).1 = [].
Proof.
  refine (createNewProject_insert_failure
            (scripted (inr "img/1") (inr tt) (ok None)
               (failed "insert rejected"))
            "u1" "img/1" {[ "title" := VStr "A"; "image" := VFile "a.png" ]}
            (RemoteError "insert rejected") _ _ _ _).
  - discriminate.
  - reflexivity.
  - reflexivity.
  - reflexivity.
Defined.

(** ** updateProject *)

Lemma strict_eq_str_true (v : value) (s : string) :
  strict_eq_str v s = true ↔ v = VStr s.
Proof.
  destruct v; cbn; try (split; [discriminate|congruence]).
  rewrite String.eqb_eq. split; congruence.
Qed.

Lemma existsb_listed (userId : string) (items : list value) :
  existsb (λ x, strict_eq_str x userId) items = true ↔ VStr userId ∈ items.
Proof.
  rewrite existsb_exists. setoid_rewrite <- list_elem_of_In. split.
  - intros (x & Hx & Heq). apply strict_eq_str_true in Heq. by subst.
  - intros Hin. exists (VStr userId). split; [done|].
    by apply strict_eq_str_true.
Qed.

(** The guard lets the creator and the listed members through. *)
Lemma checkPermission_authorized (userId : string) (existingProject : object) :
  authorized userId existingProject →
  checkPermission existingProject userId = mret tt.
Proof.
  unfold checkPermission. intros [Hc|Hm].
  - apply strict_eq_str_true in Hc. by rewrite Hc.
  - destruct (strict_eq_str _ _); [done|].
    destruct (get "members" existingProject); try done. cbn in *.
    apply existsb_listed in Hm. by rewrite Hm.
Qed.

(** The guard throws the permission error for everybody else, also when the
    project has no members array at all. *)
Lemma checkPermission_denied (userId : string) (existingProject : object) :
  get "created_by" existingProject ≠ VStr userId →
  members_column (get "members" existingProject) →
  ¬ listed userId (get "members" existingProject) →
  checkPermission existingProject userId
    = throw (Error "You don't have permission to update this project").
Proof.
  unfold checkPermission. intros Hc Hcol Hm.
  destruct (strict_eq_str _ _) eqn:Heq.
  { by apply strict_eq_str_true in Heq. }
  destruct (get "members" existingProject); try done. cbn in *.
  destruct (existsb _ _) eqn:Hex; [|done].
  by apply existsb_listed in Hex.
Qed.

(** Once the record is fetched, a throwing guard ends the call. *)
Lemma updateProject_guard_throws (E : env) (projectId userId : string)
    (projectData existingProject : object) (e : exn) :
  let fetch :=
    projects (SelectRows "*") (Some (ByEq "id" projectId)) None Single in
  projectId ≠ EmptyString → userId ≠ EmptyString →
  E [] fetch = inr (ok (Some existingProject)) →
  checkPermission existingProject userId = throw e →
  exec E (updateProject projectId userId projectData)
    = ([Called fetch], Threw e).
Proof.
  intros fetch Hp Hu Hfetch Hguard. unfold exec, updateProject.
  apply truthy_str in Hp, Hu. rewrite Hp, Hu. cbn.
  fold fetch. rewrite Hfetch. cbn. by rewrite Hguard.
Qed.

(** C1. When the fetched record's [created_by] differs from [userId] and
    [userId] is not listed in its [members], [updateProject] throws the
    permission error (an [AuthorizationError]) right after the fetch: the
    trace holds the fetch alone, and no update call is issued. *)
Theorem updateProject_unauthorized (E : env) (projectId userId : string)
    (projectData existingProject : object) :
  let fetch :=
    projects (SelectRows "*") (Some (ByEq "id" projectId)) None Single in
  projectId ≠ EmptyString → userId ≠ EmptyString →
  E [] fetch = inr (ok (Some existingProject)) →
  get "created_by" existingProject ≠ VStr userId →
  members_column (get "members" existingProject) →
  ¬ listed userId (get "members" existingProject) →
  ∃ e, exec E (updateProject projectId userId projectData)
         = ([Called fetch], Threw e)
       ∧ AuthorizationError e
       ∧ update_payloads
           (exec E (updateProject projectId userId projectData)).1 = [].
Proof.
  intros fetch Hp Hu Hfetch Hc Hcol Hm.
  exists (Error "You don't have permission to update this project").
  pose proof (checkPermission_denied _ _ Hc Hcol Hm) as Hguard.
  rewrite (updateProject_guard_throws E projectId userId projectData
             existingProject _ Hp Hu Hfetch Hguard).
  by repeat split.
Qed.

Lemma updateProject_unauthorized_witness :
  ∃ e, exec (scripted (inr "img/2") (inr tt)
               (ok (Some (project_p1 VNull))) (ok (Some ∅)))
         (updateProject "p1" "u2" {[ "title" := VStr "B" ]})
       = ([Called (projects (SelectRows "*") (Some (ByEq "id" "p1"))
                     None Single)],
          Threw e)
     ∧ AuthorizationError e
     ∧ update_payloads
         (exec (scripted (inr "img/2") (inr tt)
                  (ok (Some (project_p1 VNull))) (ok (Some ∅)))
            (updateProject "p1" "u2" {[ "title" := VStr "B" ]})).1 = [].
Proof.
  refine (updateProject_unauthorized
            (scripted (inr "img/2") (inr tt)
               (ok (Some (project_p1 VNull))) (ok (Some ∅)))
            "p1" "u2" {[ "title" := VStr "B" ]} (project_p1 VNull)
            _ _ _ _ _ _).
  - discriminate.
  - discriminate.
  - reflexivity.
  - discriminate.
  - exact I.
  - change (VStr "u2" ∉ [VStr "u3"]).
    rewrite list_elem_of_singleton. discriminate.
Defined.

(** C10. When the fetched record's [members] is null or absent, the guard
    does not crash on it: the optional call short-circuits, and a [userId]
    other than [created_by] gets the permission error (an
    [AuthorizationError], not a [TypeError]). *)
Theorem updateProject_members_missing (E : env) (projectId userId : string)
    (projectData existingProject : object) :
  let fetch :=
    projects (SelectRows "*") (Some (ByEq "id" projectId)) None Single in
  projectId ≠ EmptyString → userId ≠ EmptyString →
  E [] fetch = inr (ok (Some existingProject)) →
  existingProject !! "members" = None
  ∨ existingProject !! "members" = Some VNull →
  get "created_by" existingProject ≠ VStr userId →
  ∃ e, exec E (updateProject projectId userId projectData)
         = ([Called fetch], Threw e)
       ∧ AuthorizationError e
       ∧ e ≠ TypeError.
Proof.
  intros fetch Hp Hu Hfetch Hmissing Hc.
  exists (Error "You don't have permission to update this project").
  assert (get "members" existingProject = VUndefined
          ∨ get "members" existingProject = VNull) as Hm.
  { unfold get. destruct Hmissing as [-> | ->]; auto. }
  assert (checkPermission existingProject userId
          = throw (Error "You don't have permission to update this project"))
    as Hguard.
  { apply checkPermission_denied; [done|..];
      destruct Hm as [-> | ->]; cbn; tauto. }
  rewrite (updateProject_guard_throws E projectId userId projectData
             existingProject _ Hp Hu Hfetch Hguard).
  by repeat split.
Qed.

Lemma updateProject_members_missing_witness :
  ∃ e, exec (scripted (inr "img/2") (inr tt)
               (ok (Some {[ "id" := VStr "p1"; "created_by" := VStr "u1";
                            "members" := VNull ]}))
               (ok (Some ∅)))
         (updateProject "p1" "u2" {[ "title" := VStr "B" ]})
       = ([Called (projects (SelectRows "*") (Some (ByEq "id" "p1"))
                     None Single)],
          Threw e)
     ∧ AuthorizationError e
     ∧ e ≠ TypeError.
Proof.
  refine (updateProject_members_missing
            (scripted (inr "img/2") (inr tt)
               (ok (Some {[ "id" := VStr "p1"; "created_by" := VStr "u1";
                            "members" := VNull ]}))
               (ok (Some ∅)))
            "p1" "u2" {[ "title" := VStr "B" ]}
            {[ "id" := VStr "p1"; "created_by" := VStr "u1";
               "members" := VNull ]}
            _ _ _ _ _).
  - discriminate.
  - discriminate.
  - reflexivity.
  - right. reflexivity.
  - discriminate.
Defined.

(** The guard awaits nothing: it passes or throws. *)
Lemma checkPermission_pure (userId : string) (existingProject : object) :
  checkPermission existingProject userId = mret tt
  ∨ ∃ e, checkPermission existingProject userId = throw e.
Proof.
  unfold checkPermission. destruct (strict_eq_str _ _); [by left|].
  destruct (opt_includes _ _) as [|[]|]; eauto.
Qed.

(** What a run of [updateProject] sends to the store: nothing, or the one
    payload [updateData] builds from [projectData] and the resolved url. *)
Lemma updateProject_updates (E : env) (projectId userId : string)
    (projectData : object) :
  let fetch :=
    projects (SelectRows "*") (Some (ByEq "id" projectId)) None Single in
  let t := (exec E (updateProject projectId userId projectData)).1 in
  update_payloads t = []
  ∨ ∃ existingProject imageUrl,
      E [] fetch = inr (ok (Some existingProject))
      ∧ resolved E userId projectData existingProject imageUrl
      ∧ update_payloads t = [updateData projectData imageUrl].
Proof.
  intros fetch t. subst t. unfold exec, updateProject, resolved.
  destruct (truthy (VStr projectId)), (truthy (VStr userId));
    cbn; try by left.
  fold fetch. destruct (E [] fetch) as [e|[[existing|] [e|]]] eqn:Hfetch;
    cbn; try by left.
  destruct (checkPermission_pure userId existing) as [-> | [e ->]];
    cbn; [|by left].
  destruct (truthy (get "image" projectData)) eqn:Himage; cbn.
  - destruct (truthy (get "image_url" existing)); cbn.
    + destruct (E [_] _) as [e|[]]; cbn; [by left|].
      destruct (E [_; _] _) as [e|url] eqn:Hupload; cbn; [by left|].
      right. exists existing, (VStr url). split; [done|].
      split; [eauto|].
      by destruct (E [_; _; _] _) as [e|[d [e|]]].
    + destruct (E [_] _) as [e|url] eqn:Hupload; cbn; [by left|].
      right. exists existing, (VStr url). split; [done|].
      split; [eauto|].
      by destruct (E [_; _] _) as [e|[d [e|]]].
  - right. exists existing, (get "image_url" existing). split; [done|].
    split; [done|].
    by destruct (E [_] _) as [e|[d [e|]]].
Qed.

(** C6. Whatever [projectData] carries, no payload that [updateProject]
    sends to the store update has an [image] property. *)
Theorem updateProject_payload_without_image (E : env)
    (projectId userId : string) (projectData : object) :
  Forall (λ payload : object, payload !! "image" = None)
    (update_payloads (exec E (updateProject projectId userId projectData)).1).
Proof.
  destruct (updateProject_updates E projectId userId projectData)
    as [-> | (existing & imageUrl & _ & _ & ->)].
  - constructor.
  - constructor; [|constructor]. unfold updateData. apply lookup_delete_eq.
Qed.

Lemma updateData_image_url (projectData : object) (imageUrl : value) :
  updateData projectData imageUrl !! "image_url" = Some imageUrl.
Proof.
  unfold updateData. rewrite lookup_delete_ne by done. apply lookup_insert_eq.
Qed.

(** An [image_url] put into [projectData] changes neither what
    [updateProject] reads from it nor the payload built from it. *)
Lemma updateData_supplied (projectData : object) (supplied imageUrl : value) :
  get "image" (<["image_url" := supplied]> projectData)
    = get "image" projectData
  ∧ updateData (<["image_url" := supplied]> projectData) imageUrl
    = updateData projectData imageUrl.
Proof.
  split.
  - unfold get. by rewrite lookup_insert_ne.
  - unfold updateData. by rewrite insert_insert_eq.
Qed.

(** C9. The [image_url] of the payload that [updateProject] sends to the
    store update is the one the service resolved.  Every payload a run sends
    has an [image_url] property, whose value is the fetched record's
    [image_url] when [projectData] carries no image, and the url that the
    upload of this run, the call right before the update, resolved to when
    it carries one.  The update is reached: an authorised call without an
    image sends it right after the fetch, and an authorised call with an
    image sends it once the image helpers have resolved.  An [image_url]
    that the caller puts into [projectData] is overwritten: the run is the
    same, call for call, as without it. *)
Theorem updateProject_image_url_resolved (E : env)
    (projectId userId : string) (projectData : object) :
  let fetch :=
    projects (SelectRows "*") (Some (ByEq "id" projectId)) None Single in
  let upload := UploadProjectImage userId (get "image" projectData) in
  let update imageUrl :=
    projects (UpdateRows (updateData projectData imageUrl))
      (Some (ByEq "id" projectId)) (Some "*") Single in
  let run := exec E (updateProject projectId userId projectData) in
  (update_payloads run.1 = []
   ∨ ∃ existingProject h imageUrl,
       E [] fetch = inr (ok (Some existingProject))
       ∧ run.1 = (h ++ [Called (update imageUrl)])%list
       ∧ update_payloads run.1 = [updateData projectData imageUrl]
       ∧ updateData projectData imageUrl !! "image_url" = Some imageUrl
       ∧ resolved_in_run E userId projectData existingProject h imageUrl)
  ∧ (∀ existingProject,
       projectId ≠ EmptyString → userId ≠ EmptyString →
       E [] fetch = inr (ok (Some existingProject)) →
       authorized userId existingProject →
       truthy (get "image" projectData) = false →
       let imageUrl := get "image_url" existingProject in
       run = ([Called fetch; Called (update imageUrl)],
              settled (E [Called fetch] (update imageUrl))))
  ∧ (∀ existingProject url,
       projectId ≠ EmptyString → userId ≠ EmptyString →
       E [] fetch = inr (ok (Some existingProject)) →
       authorized userId existingProject →
       truthy (get "image" projectData) = true →
       let remove := DeleteProjectImage (get "image_url" existingProject) in
       let h :=
         if truthy (get "image_url" existingProject)
         then [Called fetch; Called remove] else [Called fetch] in
       (truthy (get "image_url" existingProject) = true →
        E [Called fetch] remove = inr tt) →
       E h upload = inr url →
       run = ((h ++ [Called upload; Called (update (VStr url))])%list,
              settled (E (h ++ [Called upload])%list (update (VStr url)))))
  ∧ (∀ supplied,
       exec E (updateProject projectId userId
                 (<["image_url" := supplied]> projectData))
       = run).
Proof.
  intros fetch upload update run. subst run.
  split; [|split; [|split]].
  - unfold exec, updateProject, resolved_in_run.
    destruct (truthy (VStr projectId)), (truthy (VStr userId));
      cbn; try by left.
    fold fetch. destruct (E [] fetch) as [e|[[existing|] [e|]]] eqn:Hfetch;
      cbn; try by left.
    destruct (checkPermission_pure userId existing) as [-> | [e ->]];
      cbn; [|by left].
    fold upload.
    destruct (truthy (get "image" projectData)) eqn:Himage; cbn.
    + destruct (truthy (get "image_url" existing)); cbn.
      * destruct (E [_] _) as [e|[]]; cbn; [by left|].
        destruct (E [_; _] upload) as [e|url] eqn:Hupload; cbn; [by left|].
        right. fold (update (VStr url)).
        exists existing,
          [Called fetch;
           Called (DeleteProjectImage (get "image_url" existing));
           Called upload], (VStr url).
        split; [done|].
        destruct (E [_; _; _] _) as [e|[d [e|]]]; cbn;
          (split; [done|]; split; [done|];
           split; [apply updateData_image_url|];
           by exists [Called fetch;
                      Called (DeleteProjectImage
                                (get "image_url" existing))], url).
      * destruct (E [_] upload) as [e|url] eqn:Hupload; cbn; [by left|].
        right. fold (update (VStr url)).
        exists existing, [Called fetch; Called upload], (VStr url).
        split; [done|].
        destruct (E [_; _] _) as [e|[d [e|]]]; cbn;
          (split; [done|]; split; [done|];
           split; [apply updateData_image_url|];
           by exists [Called fetch], url).
    + right. fold (update (get "image_url" existing)).
      exists existing, [Called fetch], (get "image_url" existing).
      split; [done|].
      destruct (E [_] _) as [e|[d [e|]]]; cbn;
        (split; [done|]; split; [done|];
         split; [apply updateData_image_url|done]).
  - intros existing Hp Hu Hfetch Hauth Himage imageUrl.
    unfold exec, updateProject.
    rewrite (proj2 (truthy_str _) Hp), (proj2 (truthy_str _) Hu). cbn.
    fold fetch. rewrite Hfetch. cbn.
    rewrite (checkPermission_authorized _ _ Hauth). cbn.
    rewrite Himage. cbn. fold imageUrl. fold (update imageUrl).
    by destruct (E [Called fetch] (update imageUrl)) as [e|[d [e|]]].
  - intros existing url Hp Hu Hfetch Hauth Himage remove h Hremove Hupload.
    unfold exec, updateProject.
    rewrite (proj2 (truthy_str _) Hp), (proj2 (truthy_str _) Hu). cbn.
    fold fetch. rewrite Hfetch. cbn.
    rewrite (checkPermission_authorized _ _ Hauth). cbn.
    rewrite Himage. cbn. fold upload. subst h.
    destruct (truthy (get "image_url" existing)); cbn.
    + fold remove. rewrite (Hremove eq_refl). cbn. rewrite Hupload. cbn.
      fold (update (VStr url)).
      by destruct (E [_; _; _] (update (VStr url))) as [e|[d [e|]]].
    + rewrite Hupload. cbn. fold (update (VStr url)).
      by destruct (E [_; _] (update (VStr url))) as [e|[d [e|]]].
  - intros supplied.
    destruct (updateData_supplied projectData supplied VNull) as [Hget _].
    assert (∀ v, updateData (<["image_url" := supplied]> projectData) v
                 = updateData projectData v) as Hupd.
    { intros v. apply updateData_supplied. }
    revert Hget Hupd.
    generalize (<["image_url" := supplied]> projectData) as supplied_data.
    intros supplied_data Hget Hupd. unfold exec, updateProject.
    destruct (truthy (VStr projectId)), (truthy (VStr userId));
      cbn; try done.
    destruct (E [] _) as [e|[[existing|] [e|]]]; cbn; try done.
    destruct (checkPermission_pure userId existing) as [-> | [e ->]];
      cbn; [|done].
    rewrite Hget.
    destruct (truthy (get "image" projectData)); cbn.
    + destruct (truthy (get "image_url" existing)); cbn.
      * destruct (E [_] _) as [e|[]]; cbn; [done|].
        destruct (E [_; _] _) as [e|url]; cbn; [done|].
        rewrite Hupd.
        by destruct (E [_; _; _] _) as [e|[d [e|]]].
      * destruct (E [_] _) as [e|url]; cbn; [done|].
        rewrite Hupd.
        by destruct (E [_; _] _) as [e|[d [e|]]].
    + rewrite Hupd.
      by destruct (E [_] _) as [e|[d [e|]]].
Qed.

Lemma updateProject_image_url_resolved_witness :
  exec (scripted (inr "img/2") (inr tt)
          (ok (Some (project_p1 (VStr "img/1")))) (ok (Some ∅)))
       (updateProject "p1" "u3"
          {[ "title" := VStr "B"; "image_url" := VNull ]})
    = ([Called (projects (SelectRows "*") (Some (ByEq "id" "p1")) None
                  Single);
        Called (projects
                  (UpdateRows
                     (updateData
                        {[ "title" := VStr "B"; "image_url" := VNull ]}
                        (VStr "img/1")))
                  (Some (ByEq "id" "p1")) (Some "*") Single)],
       Returned (Some ∅))
  ∧ exec (scripted (inr "img/2") (inr tt)
            (ok (Some (project_p1 (VStr "img/1")))) (ok (Some ∅)))
         (updateProject "p1" "u3"
            {[ "image" := VFile "b.png"; "image_url" := VNull ]})
    = ([Called (projects (SelectRows "*") (Some (ByEq "id" "p1")) None
                  Single);
        Called (DeleteProjectImage (VStr "img/1"));
        Called (UploadProjectImage "u3" (VFile "b.png"));
        Called (projects
                  (UpdateRows
                     (updateData
                        {[ "image" := VFile "b.png"; "image_url" := VNull ]}
                        (VStr "img/2")))
                  (Some (ByEq "id" "p1")) (Some "*") Single)],
       Returned (Some ∅)).
Proof.
  split.
  - refine (proj1 (proj2 (updateProject_image_url_resolved
                            (scripted (inr "img/2") (inr tt)
                               (ok (Some (project_p1 (VStr "img/1"))))
                               (ok (Some ∅)))
                            "p1" "u3"
                            {[ "title" := VStr "B"; "image_url" := VNull ]}))
              (project_p1 (VStr "img/1")) _ _ _ _ _).
    + discriminate.
    + discriminate.
    + reflexivity.
    + right. change (VStr "u3" ∈ [VStr "u3"]).
      by apply list_elem_of_singleton.
    + reflexivity.
  - refine (proj1 (proj2 (proj2 (updateProject_image_url_resolved
                                   (scripted (inr "img/2") (inr tt)
                                      (ok (Some (project_p1 (VStr "img/1"))))
                                      (ok (Some ∅)))
                                   "p1" "u3"
                                   {[ "image" := VFile "b.png";
                                      "image_url" := VNull ]})))
              (project_p1 (VStr "img/1")) "img/2" _ _ _ _ _ _ _).
    + discriminate.
    + discriminate.
    + reflexivity.
    + right. change (VStr "u3" ∈ [VStr "u3"]).
      by apply list_elem_of_singleton.
    + reflexivity.
    + reflexivity.
    + reflexivity.
Defined.

(** A run for the two statements above: an authorised update reaches
    the store with one payload. *)
Example updateProject_sends_one_payload :
  update_payloads
    (exec (scripted (inr "img/2") (inr tt)
             (ok (Some (project_p1 (VStr "img/1")))) (ok (Some ∅)))
       (updateProject "p1" "u3"
          {[ "title" := VStr "B"; "image" := VFile "b.png";
             "image_url" := VNull ]})).1
  = [ {[ "title" := VStr "B"; "image_url" := VStr "img/2" ]} ].
Proof. reflexivity. Qed.

(** C5, as amended. In an authorised call of [updateProject] that carries an
    image, when the fetched record's [image_url] is truthy (a non-empty
    string), the image-delete of that url is the call right after the fetch
    and comes before the upload of the new image; when the delete rejects,
    the operation ends there with that error and nothing is uploaded. *)
Theorem updateProject_replaces_image (E : env) (projectId userId : string)
    (projectData existingProject : object) :
  let fetch :=
    projects (SelectRows "*") (Some (ByEq "id" projectId)) None Single in
  projectId ≠ EmptyString → userId ≠ EmptyString →
  E [] fetch = inr (ok (Some existingProject)) →
  authorized userId existingProject →
  truthy (get "image" projectData) = true →
  truthy (get "image_url" existingProject) = true →
  deletes_old_image_first E projectId userId projectData existingProject.
Proof.
  intros fetch Hp Hu Hfetch Hauth Himage Hold.
  unfold deletes_old_image_first, exec, updateProject.
  apply truthy_str in Hp, Hu. rewrite Hp, Hu. cbn.
  fold fetch. rewrite Hfetch. cbn.
  rewrite (checkPermission_authorized _ _ Hauth), Himage, Hold. cbn.
  destruct (E [Called fetch] _) as [e|[]]; cbn.
  - by exists [], (Threw (Remote e)).
  - destruct (E [_; _] _) as [e|url]; cbn.
    + eexists _, _. split; [reflexivity|]. by eexists.
    + destruct (E [_; _; _] _) as [e|[d [e|]]]; cbn;
        (eexists _, _; split; [reflexivity|]; by eexists).
Qed.

Lemma updateProject_replaces_image_witness :
  deletes_old_image_first
    (scripted (inr "img/2") (inl (RemoteError "storage down"))
       (ok (Some (project_p1 (VStr "img/1")))) (ok (Some ∅)))
    "p1" "u3" {[ "image" := VFile "b.png" ]} (project_p1 (VStr "img/1")).
Proof.
  refine (updateProject_replaces_image
            (scripted (inr "img/2") (inl (RemoteError "storage down"))
               (ok (Some (project_p1 (VStr "img/1")))) (ok (Some ∅)))
            "p1" "u3" {[ "image" := VFile "b.png" ]}
            (project_p1 (VStr "img/1")) _ _ _ _ _ _).
  - discriminate.
  - discriminate.
  - reflexivity.
  - right. change (VStr "u3" ∈ [VStr "u3"]). by apply list_elem_of_singleton.
  - reflexivity.
  - reflexivity.
Defined.

(** C5, as stated, does not hold: a stored [image_url] that is not null but
    is the empty string fails the test [if (imageUrl)], so the authorised
    call below uploads the new image without any image-delete. *)
Lemma updateProject_empty_image_url_kept :
  ¬ (∀ (E : env) (projectId userId : string)
       (projectData existingProject : object),
       projectId ≠ EmptyString → userId ≠ EmptyString →
       E [] (projects (SelectRows "*") (Some (ByEq "id" projectId))
               None Single)
         = inr (ok (Some existingProject)) →
       authorized userId existingProject →
       truthy (get "image" projectData) = true →
       get "image_url" existingProject ≠ VNull →
       deletes_old_image_first E projectId userId projectData
         existingProject).
Proof.
  intros Hclaim.
  destruct (Hclaim
              (scripted (inr "img/2") (inr tt)
                 (ok (Some (project_p1 (VStr EmptyString)))) (ok (Some ∅)))
              "p1" "u1" {[ "image" := VFile "b.png" ]}
              (project_p1 (VStr EmptyString)))
    as (t & o & Hrun & _).
  - discriminate.
  - discriminate.
  - reflexivity.
  - left. reflexivity.
  - reflexivity.
  - discriminate.
  - vm_compute in Hrun. discriminate.
Qed.

(** The run behind the lemma above: fetch, upload, update. *)
Example updateProject_empty_image_url_trace :
  image_deletes
    (exec (scripted (inr "img/2") (inr tt)
             (ok (Some (project_p1 (VStr EmptyString)))) (ok (Some ∅)))
       (updateProject "p1" "u1" {[ "image" := VFile "b.png" ]})).1 = []
  ∧ map is_image_call
      (exec (scripted (inr "img/2") (inr tt)
               (ok (Some (project_p1 (VStr EmptyString)))) (ok (Some ∅)))
         (updateProject "p1" "u1" {[ "image" := VFile "b.png" ]})).1
    = [false; true; false].
Proof. split; reflexivity. Qed.

(** ** updateProjectStatus *)

(** C7. [updateProjectStatus] awaits one call and nothing else: the update
    of the rows matching [id = projectId] with a payload whose only property
    is [status].  No fetch and no permission check come before it: whatever
    the ids are, the outcome is the reply to that update, its error rethrown
    or its data returned. *)
Theorem updateProjectStatus_patch (E : env) (projectId status : string) :
  let payload : object := {[ "status" := VStr status ]} in
  let update :=
    projects (UpdateRows payload)
      (Some (ByMatch {[ "id" := VStr projectId ]})) (Some "*") Single in
  (exec E (updateProjectStatus projectId status)).1 = [Called update]
  ∧ dom payload = ({[ "status" ]} : gset string)
  ∧ payload !! "status" = Some (VStr status)
  ∧ (exec E (updateProjectStatus projectId status)).2
    = match E [] update with
      | inl e => Threw (Remote e)
      | inr r =>
          match error r with
          | Some e => Threw (Remote e)
          | None => Returned (data r)
          end
      end.
Proof.
  intros payload update. unfold exec, updateProjectStatus. cbn.
  fold payload. fold update.
  split; [|split; [|split]].
  - by destruct (E [] update) as [e|[d [e|]]].
  - subst payload. apply dom_singleton_L.
  - subst payload. apply lookup_singleton_eq.
  - by destruct (E [] update) as [e|[d [e|]]].
Qed.

(** ** deleteProject *)

(** C4. [deleteProject] returns nothing but [true]; it does so also when the
    fetch finds no record, after a fetch and a delete of the row.  When the
    fetched record's [image_url] is a non-empty string, a successful run
    awaits the image-delete of that url between the fetch and the delete of
    the row; when the record has no [image_url] (absent or null), no
    image-delete is awaited at all. *)
Theorem deleteProject_contract (E : env) (projectId : string) :
  let fetch :=
    projects (SelectRows "*") (Some (ByEq "id" projectId)) None MaybeSingle in
  let remove := projects DeleteRows (Some (ByEq "id" projectId)) None Rows in
  (∀ t b, exec E (deleteProject projectId) = (t, Returned b) → b = true)
  ∧ (∀ r, E [] fetch = inr (ok None) →
          E [Called fetch] remove = inr r → error r = None →
          exec E (deleteProject projectId)
            = ([Called fetch; Called remove], Returned true))
  ∧ (∀ project url t b,
       E [] fetch = inr (ok (Some project)) →
       get "image_url" project = VStr url → url ≠ EmptyString →
       exec E (deleteProject projectId) = (t, Returned b) →
       t = [Called fetch; Called (DeleteProjectImage (VStr url));
            Called remove])
  ∧ (∀ project,
       E [] fetch = inr (ok (Some project)) →
       project !! "image_url" = None ∨ project !! "image_url" = Some VNull →
       image_deletes (exec E (deleteProject projectId)).1 = []).
Proof.
  intros fetch remove. unfold exec, deleteProject. cbn. fold fetch.
  split; [|split; [|split]].
  - intros t b.
    destruct (E [] fetch) as [e|[d [e|]]]; cbn; try discriminate.
    destruct d as [project|]; cbn.
    + destruct (truthy _ && is_string _); cbn.
      * destruct (E [_] _) as [e|[]]; cbn; [discriminate|].
        destruct (E [_; _] _) as [e|[d [e|]]]; cbn; try discriminate.
        by intros [= _ <-].
      * destruct (E [_] _) as [e|[d [e|]]]; cbn; try discriminate.
        by intros [= _ <-].
    + destruct (E [_] _) as [e|[d [e|]]]; cbn; try discriminate.
      by intros [= _ <-].
  - intros r -> Hremove Herr. cbn. fold remove. rewrite Hremove. cbn.
    by rewrite Herr.
  - intros project url t b -> Hurl Hne. cbn. rewrite Hurl. cbn.
    apply truthy_str in Hne. cbn in Hne. rewrite Hne. cbn.
    destruct (E [_] _) as [e|[]]; cbn; [discriminate|]. fold remove.
    destruct (E [_; _] _) as [e|[d [e|]]]; cbn; try discriminate.
    by intros [= <- _].
  - intros project -> Hmissing. cbn.
    assert (truthy (get "image_url" project) = false) as ->.
    { unfold get. by destruct Hmissing as [-> | ->]. }
    cbn. by destruct (E [_] _) as [e|[d [e|]]].
Qed.

Lemma deleteProject_contract_witness :
  exec (scripted (inr "img/2") (inr tt) (ok None) (ok None))
       (deleteProject "p9")
    = ([Called (projects (SelectRows "*") (Some (ByEq "id" "p9")) None
                  MaybeSingle);
        Called (projects DeleteRows (Some (ByEq "id" "p9")) None Rows)],
       Returned true)
  ∧ (exec (scripted (inr "img/2") (inr tt)
             (ok (Some (project_p1 (VStr "img/1")))) (ok None))
       (deleteProject "p1")).1
    = [Called (projects (SelectRows "*") (Some (ByEq "id" "p1")) None
                 MaybeSingle);
       Called (DeleteProjectImage (VStr "img/1"));
       Called (projects DeleteRows (Some (ByEq "id" "p1")) None Rows)]
  ∧ image_deletes
      (exec (scripted (inr "img/2") (inr tt)
               (ok (Some (project_p1 VNull))) (ok None))
         (deleteProject "p1")).1 = [].
Proof.
  split; [|split].
  - refine (proj1 (proj2 (deleteProject_contract
                            (scripted (inr "img/2") (inr tt) (ok None)
                               (ok None)) "p9"))
              (ok None) _ _ _); reflexivity.
  - refine (proj1 (proj2 (proj2 (deleteProject_contract
                                   (scripted (inr "img/2") (inr tt)
                                      (ok (Some (project_p1 (VStr "img/1"))))
                                      (ok None)) "p1")))
              (project_p1 (VStr "img/1")) "img/1" _ true _ _ _ _).
    + reflexivity.
    + reflexivity.
    + discriminate.
    + reflexivity.
  - refine (proj2 (proj2 (proj2 (deleteProject_contract
                                   (scripted (inr "img/2") (inr tt)
                                      (ok (Some (project_p1 VNull)))
                                      (ok None)) "p1")))
              (project_p1 VNull) _ _).
    + reflexivity.
    + right. reflexivity.
Defined.

(** * Further properties of the four operations *)

(** ** createNewProject, beyond the defaults *)

(** The calls of [createNewProject], run by run. *)
Lemma createNewProject_shape (E : env) (userId : string)
    (projectData : object) :
  let upload := UploadProjectImage userId (get "image" projectData) in
  let insert imageUrl :=
    projects (InsertRows [newProject userId projectData imageUrl])
      None (Some "*") Single in
  let run := exec E (createNewProject userId projectData) in
  (userId = EmptyString ∧ run.1 = [])
  ∨ (userId ≠ EmptyString ∧ truthy (get "image" projectData) = false
     ∧ run = ([Called (insert VNull)], settled (E [] (insert VNull))))
  ∨ (userId ≠ EmptyString ∧ truthy (get "image" projectData) = true
     ∧ ((∃ e, E [] upload = inl e
              ∧ run = ([Called upload], Threw (Remote e)))
        ∨ (∃ url, E [] upload = inr url
              ∧ run = ([Called upload; Called (insert (VStr url))],
                       settled (E [Called upload] (insert (VStr url))))))).
Proof.
  intros upload insert run. subst run. unfold exec, createNewProject.
  destruct (truthy (VStr userId)) eqn:Hu; cbn.
  - apply truthy_str in Hu. right.
    destruct (truthy (get "image" projectData)); cbn.
    + right. split; [done|]. split; [done|]. fold upload.
      destruct (E [] upload) as [e|url]; cbn; [left; by exists e|].
      right. exists url. split; [done|]. fold (insert (VStr url)).
      by destruct (E [Called upload] _) as [e|[d [e|]]].
    + left. split; [done|]. split; [done|]. fold (insert VNull).
      by destruct (E [] _) as [e|[d [e|]]].
  - left. split; [|done].
    destruct (decide (userId = EmptyString)) as [|Hne]; [done|].
    apply truthy_str in Hne. congruence.
Qed.

(** X1. A [createNewProject] whose [projectData] has no image (absent, or
    any falsy value) never calls an image helper: its only call is the
    insert, of one record whose [image_url] is null, and it ends as that
    insert does. *)
Theorem createNewProject_without_image (E : env) (userId : string)
    (projectData : object) :
  let insert :=
    projects (InsertRows [newProject userId projectData VNull])
      None (Some "*") Single in
  userId ≠ EmptyString →
  truthy (get "image" projectData) = false →
  exec E (createNewProject userId projectData)
    = ([Called insert], settled (E [] insert))
  ∧ newProject userId projectData VNull !! "image_url" = Some VNull
  ∧ image_uploads (exec E (createNewProject userId projectData)).1 = [].
Proof.
  intros insert Hu Himage.
  destruct (createNewProject_shape E userId projectData)
    as [[? _]|[(_ & _ & Hrun)|(_ & ? & _)]]; [done| |congruence].
  rewrite Hrun. split; [done|]. split; [|done].
  unfold newProject. by simplify_map_eq.
Qed.

Lemma createNewProject_without_image_witness :
  exec (scripted (inr "img/1") (inr tt) (ok None)
          (ok (Some {[ "id" := VStr "p7" ]})))
       (createNewProject "u1" {[ "title" := VStr "A"; "image" := VNull ]})
    = ([Called (projects
                  (InsertRows
                     [newProject "u1"
                        {[ "title" := VStr "A"; "image" := VNull ]} VNull])
                  None (Some "*") Single)],
       Returned (Some {[ "id" := VStr "p7" ]}))
  ∧ newProject "u1" {[ "title" := VStr "A"; "image" := VNull ]} VNull
      !! "image_url" = Some VNull
  ∧ image_uploads
      (exec (scripted (inr "img/1") (inr tt) (ok None)
               (ok (Some {[ "id" := VStr "p7" ]})))
         (createNewProject "u1"
            {[ "title" := VStr "A"; "image" := VNull ]})).1 = [].
Proof.
  refine (createNewProject_without_image
            (scripted (inr "img/1") (inr tt) (ok None)
               (ok (Some {[ "id" := VStr "p7" ]})))
            "u1" {[ "title" := VStr "A"; "image" := VNull ]} _ _).
  - discriminate.
  - reflexivity.
Defined.

(** X2. A [createNewProject] with an image uploads it first, once, under
    the caller's [userId]; the insert that follows carries the url the
    upload resolved to as [image_url], and the call ends as that insert
    does. *)
Theorem createNewProject_with_image (E : env) (userId url : string)
    (projectData : object) :
  let upload := UploadProjectImage userId (get "image" projectData) in
  let insert :=
    projects (InsertRows [newProject userId projectData (VStr url)])
      None (Some "*") Single in
  userId ≠ EmptyString →
  truthy (get "image" projectData) = true →
  E [] upload = inr url →
  exec E (createNewProject userId projectData)
    = ([Called upload; Called insert], settled (E [Called upload] insert))
  ∧ image_uploads (exec E (createNewProject userId projectData)).1
    = [(userId, get "image" projectData)]
  ∧ newProject userId projectData (VStr url) !! "image_url"
    = Some (VStr url).
Proof.
  intros upload insert Hu Himage Hupload.
  destruct (createNewProject_shape E userId projectData)
    as [[? _]|[(_ & ? & _)|(_ & _ & [(e & He & _)|(url' & Hurl & Hrun)])]];
    [done|congruence| |].
  - fold upload in He. congruence.
  - fold upload in Hurl. rewrite Hupload in Hurl. injection Hurl as <-.
    rewrite Hrun. split; [done|]. split; [done|].
    unfold newProject. by simplify_map_eq.
Qed.

Lemma createNewProject_with_image_witness :
  exec (scripted (inr "img/1") (inr tt) (ok None)
          (ok (Some {[ "id" := VStr "p7" ]})))
       (createNewProject "u1" {[ "image" := VFile "a.png" ]})
    = ([Called (UploadProjectImage "u1" (VFile "a.png"));
        Called (projects
                  (InsertRows
                     [newProject "u1" {[ "image" := VFile "a.png" ]}
                        (VStr "img/1")])
                  None (Some "*") Single)],
       Returned (Some {[ "id" := VStr "p7" ]}))
  ∧ image_uploads
      (exec (scripted (inr "img/1") (inr tt) (ok None)
               (ok (Some {[ "id" := VStr "p7" ]})))
         (createNewProject "u1" {[ "image" := VFile "a.png" ]})).1
    = [("u1", VFile "a.png")]
  ∧ newProject "u1" {[ "image" := VFile "a.png" ]} (VStr "img/1")
      !! "image_url" = Some (VStr "img/1").
Proof.
  refine (createNewProject_with_image
            (scripted (inr "img/1") (inr tt) (ok None)
               (ok (Some {[ "id" := VStr "p7" ]})))
            "u1" "img/1" {[ "image" := VFile "a.png" ]} _ _ _).
  - discriminate.
  - reflexivity.
  - reflexivity.
Defined.

(** X3. When the upload rejects, [createNewProject] rethrows its error and
    stops: the store is never called, so no record is inserted. *)
Theorem createNewProject_upload_failure (E : env) (userId : string)
    (projectData : object) (e : remote_error) :
  let upload := UploadProjectImage userId (get "image" projectData) in
  userId ≠ EmptyString →
  truthy (get "image" projectData) = true →
  E [] upload = inl e →
  exec E (createNewProject userId projectData)
    = ([Called upload], Threw (Remote e))
  ∧ queries (exec E (createNewProject userId projectData)).1 = [].
Proof.
  intros upload Hu Himage Hupload.
  destruct (createNewProject_shape E userId projectData)
    as [[? _]|[(_ & ? & _)|(_ & _ & [(e' & He & Hrun)|(url & Hurl & _)])]];
    [done|congruence| |].
  - fold upload in He. rewrite Hupload in He. injection He as <-.
    by rewrite Hrun.
  - fold upload in Hurl. congruence.
Qed.

Lemma createNewProject_upload_failure_witness :
  exec (scripted (inl (RemoteError "bucket full")) (inr tt) (ok None)
          (ok (Some ∅)))
       (createNewProject "u1" {[ "image" := VFile "a.png" ]})
    = ([Called (UploadProjectImage "u1" (VFile "a.png"))],
       Threw (Remote (RemoteError "bucket full")))
  ∧ queries
      (exec (scripted (inl (RemoteError "bucket full")) (inr tt) (ok None)
               (ok (Some ∅)))
         (createNewProject "u1" {[ "image" := VFile "a.png" ]})).1 = [].
Proof.
  refine (createNewProject_upload_failure
            (scripted (inl (RemoteError "bucket full")) (inr tt) (ok None)
               (ok (Some ∅)))
            "u1" {[ "image" := VFile "a.png" ]}
            (RemoteError "bucket full") _ _ _).
  - discriminate.
  - reflexivity.
  - reflexivity.
Defined.

(** What a run of [createNewProject] inserts: nothing, or the one record. *)
Lemma createNewProject_inserts (E : env) (userId : string)
    (projectData : object) :
  let t := (exec E (createNewProject userId projectData)).1 in
  inserts t = []
  ∨ ∃ imageUrl, inserts t = [[newProject userId projectData imageUrl]].
Proof.
  intros t. subst t.
  destruct (createNewProject_shape E userId projectData)
    as [[_ ->]|[(_ & _ & ->)|(_ & _ & [(e & _ & ->)|(url & _ & ->)])]];
    cbn; eauto.
Qed.

Lemma newProject_dom (userId : string) (projectData : object)
    (imageUrl : value) :
  dom (newProject userId projectData imageUrl) = newProject_keys.
Proof.
  unfold newProject, newProject_keys.
  rewrite !dom_insert_L, dom_empty_L. set_solver.
Qed.

(** X4. Whatever [projectData] holds, a record that [createNewProject]
    inserts has exactly the nine properties of the object literal: an [id],
    the raw [image] or any other property of [projectData] is not sent.  Its
    [created_by] is the caller's [userId] even when [projectData] has a
    [created_by] of its own; [title] and [description] are copied as read. *)
Theorem createNewProject_record_shape (E : env) (userId : string)
    (projectData : object) :
  Forall (λ rows : list object,
            ∃ record, rows = [record]
              ∧ dom record = newProject_keys
              ∧ record !! "created_by" = Some (VStr userId)
              ∧ record !! "title" = Some (get "title" projectData)
              ∧ record !! "description"
                = Some (get "description" projectData))
    (inserts (exec E (createNewProject userId projectData)).1).
Proof.
  destruct (createNewProject_inserts E userId projectData)
    as [-> | [imageUrl ->]]; constructor; [|constructor].
  exists (newProject userId projectData imageUrl).
  split; [done|]. split; [apply newProject_dom|].
  unfold newProject. repeat split; by simplify_map_eq.
Qed.

(** The run the statement above is about: a forged owner and an [id] in
    [projectData] do not reach the store. *)
Example createNewProject_forged_owner :
  inserts
    (exec (scripted (inr "img/1") (inr tt) (ok None) (ok (Some ∅)))
       (createNewProject "u1"
          {[ "id" := VStr "p0"; "title" := VStr "A";
             "created_by" := VStr "u9" ]})).1
  = [[ {[ "title" := VStr "A"; "description" := VUndefined;
          "status" := VStr "planning"; "timeline_status" := VStr "ongoing";
          "start_date" := VNull; "end_date" := VNull;
          "created_by" := VStr "u1"; "members" := VArr [];
          "image_url" := VNull ]} ]].
Proof. reflexivity. Qed.

(** X5. The five defaulted properties follow [||]: a truthy value of
    [projectData] is inserted as it is (an empty [members] array included),
    and a falsy one (absent, null, or the empty string) is replaced by the
    default. *)
Theorem createNewProject_defaulting (E : env) (userId : string)
    (projectData : object) (k : string) (d : value) :
  default_of k = Some d →
  Forall (λ rows : list object,
            ∃ record, rows = [record]
              ∧ record !! k
                = Some (if truthy (get k projectData)
                        then get k projectData else d))
    (inserts (exec E (createNewProject userId projectData)).1).
Proof.
  intros Hk.
  destruct (createNewProject_inserts E userId projectData)
    as [-> | [imageUrl ->]]; constructor; [|constructor].
  exists (newProject userId projectData imageUrl). split; [done|].
  unfold default_of in Hk. unfold newProject, or_else.
  repeat (case_decide; [simplify_eq; by simplify_map_eq|]). done.
Qed.

Lemma createNewProject_defaulting_witness :
  Forall (λ rows : list object,
            ∃ record, rows = [record]
              ∧ record !! "status"
                = Some (if truthy (get "status"
                                     {[ "status" := VStr EmptyString ]})
                        then get "status" {[ "status" := VStr EmptyString ]}
                        else VStr "planning"))
    (inserts
       (exec (scripted (inr "img/1") (inr tt) (ok None) (ok (Some ∅)))
          (createNewProject "u1" {[ "status" := VStr EmptyString ]})).1).
Proof.
  refine (createNewProject_defaulting
            (scripted (inr "img/1") (inr tt) (ok None) (ok (Some ∅)))
            "u1" {[ "status" := VStr EmptyString ]} "status"
            (VStr "planning") _).
  reflexivity.
Defined.

(** X6. [createNewProject] throws nothing of its own but the validation
    error, and that one only before any call: every other failure is a
    collaborator's error, rethrown as it came. *)
Theorem createNewProject_errors (E : env) (userId : string)
    (projectData : object) (t : list event) (e : exn) :
  exec E (createNewProject userId projectData) = (t, Threw e) →
  (ValidationError e ∧ userId = EmptyString ∧ t = [])
  ∨ (StoreError e ∧ userId ≠ EmptyString ∧ t ≠ []).
Proof.
  destruct (createNewProject_shape E userId projectData)
    as [[-> _]|[(Hu & _ & ->)|(Hu & _ & [(e' & _ & ->)|(url & _ & ->)])]].
  - intros [= <- <-]. left. split; [by left|done].
  - intros [= <- Hout]. right. split; [|done].
    destruct (E [] _) as [r|[d [r|]]]; cbn in Hout; simplify_eq;
      by eexists.
  - intros [= <- <-]. right. split; [by eexists|done].
  - intros [= <- Hout]. right. split; [|done].
    destruct (E [_] _) as [r|[d [r|]]]; cbn in Hout; simplify_eq;
      by eexists.
Qed.

Lemma createNewProject_errors_witness :
  (ValidationError (Remote (RemoteError "insert rejected"))
   ∧ "u1" = EmptyString
   ∧ [Called (projects (InsertRows [newProject "u1" ∅ VNull]) None
                (Some "*") Single)] = [])
  ∨ (StoreError (Remote (RemoteError "insert rejected"))
     ∧ "u1" ≠ EmptyString
     ∧ [Called (projects (InsertRows [newProject "u1" ∅ VNull]) None
                  (Some "*") Single)] ≠ []).
Proof.
  refine (createNewProject_errors
            (scripted (inr "img/1") (inr tt) (ok None)
               (failed "insert rejected"))
            "u1" ∅ _ _ _).
  reflexivity.
Defined.

(** ** updateProject, path by path *)

(** Unfolds an authorised [updateProject] up to the image step. *)
Ltac authorised_update fetch Hp Hu Hfetch Hauth :=
  unfold exec, updateProject;
  rewrite (proj2 (truthy_str _) Hp), (proj2 (truthy_str _) Hu); cbn;
  fold fetch; rewrite Hfetch; cbn;
  rewrite (checkPermission_authorized _ _ Hauth); cbn.

(** X7. [updateProject] checks its two ids before anything is awaited, the
    project id first: an empty [projectId] gives the "Project ID is
    required" error whatever [userId] is, and an empty [userId] with a
    [projectId] gives the "User ID is required" one.  Neither run calls the
    store or an image helper. *)
Theorem updateProject_validation (E : env) (projectId userId : string)
    (projectData : object) :
  exec E (updateProject EmptyString userId projectData)
    = ([], Threw (Error "Project ID is required to update a project"))
  ∧ (projectId ≠ EmptyString →
     exec E (updateProject projectId EmptyString projectData)
       = ([], Threw (Error "User ID is required to update a project")))
  ∧ ValidationError (Error "Project ID is required to update a project")
  ∧ ValidationError (Error "User ID is required to update a project").
Proof.
  split; [done|]. split.
  - intros Hp. unfold exec, updateProject.
    by rewrite (proj2 (truthy_str _) Hp).
  - split; [right; by left|right; by right].
Qed.

Lemma updateProject_validation_witness :
  exec (scripted (inr "img/2") (inr tt) (ok None) (ok None))
       (updateProject "p1" EmptyString {[ "title" := VStr "B" ]})
  = ([], Threw (Error "User ID is required to update a project")).
Proof.
  refine (proj1 (proj2 (updateProject_validation
                          (scripted (inr "img/2") (inr tt) (ok None)
                             (ok None))
                          "p1" "u1" {[ "title" := VStr "B" ]})) _).
  discriminate.
Defined.

(** X8. When the fetch of the existing record fails (the reply carries an
    error, as for an unknown id under [.single()], or the promise rejects),
    [updateProject] rethrows that error after the fetch: no permission
    check is reached, no image helper is called and nothing is updated. *)
Theorem updateProject_fetch_failure (E : env) (projectId userId : string)
    (projectData : object) (e : remote_error) :
  let fetch :=
    projects (SelectRows "*") (Some (ByEq "id" projectId)) None Single in
  projectId ≠ EmptyString → userId ≠ EmptyString →
  fails_with (E [] fetch) e →
  exec E (updateProject projectId userId projectData)
    = ([Called fetch], Threw (Remote e)).
Proof.
  intros fetch Hp Hu Hfails. unfold exec, updateProject.
  rewrite (proj2 (truthy_str _) Hp), (proj2 (truthy_str _) Hu). cbn.
  fold fetch. destruct (E [] fetch) as [e'|[d err]]; cbn in *.
  - by subst.
  - by subst.
Qed.

Lemma updateProject_fetch_failure_witness :
  exec (scripted (inr "img/2") (inr tt) (failed "no rows") (ok None))
       (updateProject "p404" "u1" {[ "image" := VFile "b.png" ]})
  = ([Called (projects (SelectRows "*") (Some (ByEq "id" "p404")) None
                Single)],
     Threw (Remote (RemoteError "no rows"))).
Proof.
  refine (updateProject_fetch_failure
            (scripted (inr "img/2") (inr tt) (failed "no rows") (ok None))
            "p404" "u1" {[ "image" := VFile "b.png" ]}
            (RemoteError "no rows") _ _ _).
  - discriminate.
  - discriminate.
  - reflexivity.
Defined.

(** X9. An authorised [updateProject] without an image awaits two calls,
    the fetch and the update of the row [id = projectId]; the payload is
    [projectData] with the stored [image_url] put back in, and the call ends
    as the update does.  No image helper is called. *)
Theorem updateProject_without_image (E : env) (projectId userId : string)
    (projectData existingProject : object) :
  let fetch :=
    projects (SelectRows "*") (Some (ByEq "id" projectId)) None Single in
  let update :=
    projects
      (UpdateRows (updateData projectData (get "image_url" existingProject)))
      (Some (ByEq "id" projectId)) (Some "*") Single in
  projectId ≠ EmptyString → userId ≠ EmptyString →
  E [] fetch = inr (ok (Some existingProject)) →
  authorized userId existingProject →
  truthy (get "image" projectData) = false →
  exec E (updateProject projectId userId projectData)
    = ([Called fetch; Called update], settled (E [Called fetch] update)).
Proof.
  intros fetch update Hp Hu Hfetch Hauth Himage.
  authorised_update fetch Hp Hu Hfetch Hauth.
  rewrite Himage. cbn. fold update.
  by destruct (E [Called fetch] update) as [e|[d [e|]]].
Qed.

Lemma updateProject_without_image_witness :
  exec (scripted (inr "img/2") (inr tt)
          (ok (Some (project_p1 (VStr "img/1"))))
          (ok (Some {[ "id" := VStr "p1"; "title" := VStr "B" ]})))
       (updateProject "p1" "u3" {[ "title" := VStr "B" ]})
  = ([Called (projects (SelectRows "*") (Some (ByEq "id" "p1")) None Single);
      Called (projects
                (UpdateRows
                   (updateData {[ "title" := VStr "B" ]}
                      (get "image_url" (project_p1 (VStr "img/1")))))
                (Some (ByEq "id" "p1")) (Some "*") Single)],
     Returned (Some {[ "id" := VStr "p1"; "title" := VStr "B" ]})).
Proof.
  refine (updateProject_without_image
            (scripted (inr "img/2") (inr tt)
               (ok (Some (project_p1 (VStr "img/1"))))
               (ok (Some {[ "id" := VStr "p1"; "title" := VStr "B" ]})))
            "p1" "u3" {[ "title" := VStr "B" ]}
            (project_p1 (VStr "img/1")) _ _ _ _ _).
  - discriminate.
  - discriminate.
  - reflexivity.
  - right. change (VStr "u3" ∈ [VStr "u3"]). by apply list_elem_of_singleton.
  - reflexivity.
Defined.

(** X10. An authorised [updateProject] with an image, on a record that has
    no image yet (a falsy [image_url]), deletes nothing: the upload follows
    the fetch; when it rejects the call ends there, and otherwise the update
    carries the uploaded url. *)
Theorem updateProject_first_image (E : env) (projectId userId : string)
    (projectData existingProject : object) :
  let fetch :=
    projects (SelectRows "*") (Some (ByEq "id" projectId)) None Single in
  let upload := UploadProjectImage userId (get "image" projectData) in
  let update url :=
    projects (UpdateRows (updateData projectData (VStr url)))
      (Some (ByEq "id" projectId)) (Some "*") Single in
  projectId ≠ EmptyString → userId ≠ EmptyString →
  E [] fetch = inr (ok (Some existingProject)) →
  authorized userId existingProject →
  truthy (get "image" projectData) = true →
  truthy (get "image_url" existingProject) = false →
  exec E (updateProject projectId userId projectData)
    = match E [Called fetch] upload with
      | inl e => ([Called fetch; Called upload], Threw (Remote e))
      | inr url =>
          ([Called fetch; Called upload; Called (update url)],
           settled (E [Called fetch; Called upload] (update url)))
      end
  ∧ image_deletes (exec E (updateProject projectId userId projectData)).1
    = [].
Proof.
  intros fetch upload update Hp Hu Hfetch Hauth Himage Hold.
  authorised_update fetch Hp Hu Hfetch Hauth.
  rewrite Himage, Hold. cbn. fold upload.
  destruct (E [Called fetch] upload) as [e|url]; cbn; [done|].
  fold (update url).
  by destruct (E [Called fetch; Called upload] (update url))
    as [e|[d [e|]]].
Qed.

Lemma updateProject_first_image_witness :
  exec (scripted (inr "img/2") (inr tt) (ok (Some (project_p1 VNull)))
          (ok (Some ∅)))
       (updateProject "p1" "u1" {[ "image" := VFile "b.png" ]})
    = ([Called (projects (SelectRows "*") (Some (ByEq "id" "p1")) None
                  Single);
        Called (UploadProjectImage "u1" (VFile "b.png"));
        Called (projects
                  (UpdateRows
                     (updateData {[ "image" := VFile "b.png" ]}
                        (VStr "img/2")))
                  (Some (ByEq "id" "p1")) (Some "*") Single)],
       Returned (Some ∅))
  ∧ image_deletes
      (exec (scripted (inr "img/2") (inr tt) (ok (Some (project_p1 VNull)))
               (ok (Some ∅)))
         (updateProject "p1" "u1" {[ "image" := VFile "b.png" ]})).1 = [].
Proof.
  refine (updateProject_first_image
            (scripted (inr "img/2") (inr tt) (ok (Some (project_p1 VNull)))
               (ok (Some ∅)))
            "p1" "u1" {[ "image" := VFile "b.png" ]} (project_p1 VNull)
            _ _ _ _ _ _).
  - discriminate.
  - discriminate.
  - reflexivity.
  - left. reflexivity.
  - reflexivity.
  - reflexivity.
Defined.

(** X11. Replacing an image is not undone on failure: in an authorised
    [updateProject] with an image on a record that has one, the old image is
    deleted first; when the upload of the new one then rejects, the call
    rethrows that error without any update, so the record keeps the url of
    the image just deleted.  When the upload resolves, the update carries
    the new url and the call ends as the update does. *)
Theorem updateProject_replacement (E : env) (projectId userId : string)
    (projectData existingProject : object) :
  let fetch :=
    projects (SelectRows "*") (Some (ByEq "id" projectId)) None Single in
  let remove := DeleteProjectImage (get "image_url" existingProject) in
  let upload := UploadProjectImage userId (get "image" projectData) in
  let update url :=
    projects (UpdateRows (updateData projectData (VStr url)))
      (Some (ByEq "id" projectId)) (Some "*") Single in
  projectId ≠ EmptyString → userId ≠ EmptyString →
  E [] fetch = inr (ok (Some existingProject)) →
  authorized userId existingProject →
  truthy (get "image" projectData) = true →
  truthy (get "image_url" existingProject) = true →
  E [Called fetch] remove = inr tt →
  exec E (updateProject projectId userId projectData)
    = match E [Called fetch; Called remove] upload with
      | inl e =>
          ([Called fetch; Called remove; Called upload], Threw (Remote e))
      | inr url =>
          ([Called fetch; Called remove; Called upload; Called (update url)],
           settled (E [Called fetch; Called remove; Called upload]
                      (update url)))
      end.
Proof.
  intros fetch remove upload update Hp Hu Hfetch Hauth Himage Hold Hremove.
  authorised_update fetch Hp Hu Hfetch Hauth.
  rewrite Himage, Hold. cbn. fold remove. rewrite Hremove. cbn.
  fold upload.
  destruct (E [Called fetch; Called remove] upload) as [e|url]; cbn; [done|].
  fold (update url).
  by destruct (E [Called fetch; Called remove; Called upload] (update url))
    as [e|[d [e|]]].
Qed.

Lemma updateProject_replacement_witness :
  exec (scripted (inl (RemoteError "bucket full")) (inr tt)
          (ok (Some (project_p1 (VStr "img/1")))) (ok (Some ∅)))
       (updateProject "p1" "u1" {[ "image" := VFile "b.png" ]})
  = ([Called (projects (SelectRows "*") (Some (ByEq "id" "p1")) None Single);
      Called (DeleteProjectImage (VStr "img/1"));
      Called (UploadProjectImage "u1" (VFile "b.png"))],
     Threw (Remote (RemoteError "bucket full"))).
Proof.
  refine (updateProject_replacement
            (scripted (inl (RemoteError "bucket full")) (inr tt)
               (ok (Some (project_p1 (VStr "img/1")))) (ok (Some ∅)))
            "p1" "u1" {[ "image" := VFile "b.png" ]}
            (project_p1 (VStr "img/1")) _ _ _ _ _ _ _).
  - discriminate.
  - discriminate.
  - reflexivity.
  - left. reflexivity.
  - reflexivity.
  - reflexivity.
  - reflexivity.
Defined.

(** ** updateProject, over all runs *)

(** Case analysis on the answers of the environment that a run consults. *)
Ltac explore E :=
  repeat (cbn;
    match goal with
    | |- context [E ?h ?c] =>
        let Hcall := fresh "Hcall" in
        destruct (E h c) as [?e|?r] eqn:Hcall
    | r : store_reply |- _ => destruct r as [[?d|] [?e|]]
    | r : reply (Supabase _) |- _ => destruct r as [[?d|] [?e|]]
    | r : reply (projects _ _ _ _) |- _ => destruct r as [[?d|] [?e|]]
    | u : unit |- _ => destruct u
    | u : reply (DeleteProjectImage _) |- _ => destruct u
    end).

(** X12. Apart from [image_url], a payload that [updateProject] sends is
    [projectData] without its [image]: every other property the caller
    supplies ([created_by], [members] and [id] included) reaches the store
    as given, and nothing is added. *)
Theorem updateProject_payload_frame (E : env) (projectId userId : string)
    (projectData : object) :
  Forall (λ payload : object,
            delete "image_url" payload
            = delete "image_url" (delete "image" projectData))
    (update_payloads (exec E (updateProject projectId userId projectData)).1).
Proof.
  destruct (updateProject_updates E projectId userId projectData)
    as [-> | (existing & imageUrl & _ & _ & ->)]; constructor;
    [|constructor].
  unfold updateData. apply map_eq. intros k.
  destruct (decide (k = "image_url")) as [->|Hk].
  - by rewrite !lookup_delete_eq.
  - rewrite !(lookup_delete_ne _ "image_url") by done.
    destruct (decide (k = "image")) as [->|Hk'].
    + by rewrite !lookup_delete_eq.
    + rewrite !(lookup_delete_ne _ "image") by done.
      by rewrite lookup_insert_ne.
Qed.

(** The statement above on a run: the owner and the member list that a
    member puts into [projectData] are part of the payload. *)
Example updateProject_member_changes_owner :
  update_payloads
    (exec (scripted (inr "img/2") (inr tt)
             (ok (Some (project_p1 VNull))) (ok (Some ∅)))
       (updateProject "p1" "u3"
          {[ "created_by" := VStr "u3"; "members" := VArr [] ]})).1
  = [ {[ "created_by" := VStr "u3"; "members" := VArr [];
         "image_url" := VNull ]} ].
Proof. reflexivity. Qed.

(** X13. The store calls of [updateProject] are, in this order, the select
    of the row [id = projectId] and at most one update of that same row:
    no run inserts or deletes a row, touches another row, or updates before
    the fetch. *)
Theorem updateProject_queries (E : env) (projectId userId : string)
    (projectData : object) :
  let fetch := Query "projects" (SelectRows "*")
                 (Some (ByEq "id" projectId)) None Single in
  let t := (exec E (updateProject projectId userId projectData)).1 in
  queries t = []
  ∨ queries t = [fetch]
  ∨ ∃ payload,
      queries t = [fetch;
                   Query "projects" (UpdateRows payload)
                     (Some (ByEq "id" projectId)) (Some "*") Single].
Proof.
  intros fetch t. subst t. unfold exec, updateProject.
  destruct (truthy (VStr projectId)), (truthy (VStr userId));
    cbn; auto.
  destruct (E [] _) as [e|[[existing|] [e|]]]; cbn; auto.
  destruct (checkPermission_pure userId existing) as [-> | [e ->]];
    cbn; auto.
  destruct (truthy (get "image" projectData)),
    (truthy (get "image_url" existing)); explore E; eauto.
Qed.

(** X14. Without an image in [projectData] (absent, or any falsy value),
    no run of [updateProject] calls an image helper: the stored image is
    neither deleted nor replaced, whoever calls and whatever the store
    answers. *)
Theorem updateProject_image_untouched (E : env) (projectId userId : string)
    (projectData : object) :
  truthy (get "image" projectData) = false →
  Forall (λ ev, is_image_call ev = false)
    (exec E (updateProject projectId userId projectData)).1.
Proof.
  intros Himage. unfold exec, updateProject.
  destruct (truthy (VStr projectId)), (truthy (VStr userId));
    cbn; try by constructor.
  destruct (E [] _) as [e|[[existing|] [e|]]]; cbn;
    try by repeat constructor.
  destruct (checkPermission_pure userId existing) as [-> | [e ->]];
    cbn; [|by repeat constructor].
  rewrite Himage. explore E; by repeat constructor.
Qed.

Lemma updateProject_image_untouched_witness :
  Forall (λ ev, is_image_call ev = false)
    (exec (scripted (inr "img/2") (inr tt)
             (ok (Some (project_p1 (VStr "img/1")))) (ok (Some ∅)))
       (updateProject "p1" "u1" {[ "image_url" := VNull ]})).1.
Proof.
  refine (updateProject_image_untouched
            (scripted (inr "img/2") (inr tt)
               (ok (Some (project_p1 (VStr "img/1")))) (ok (Some ∅)))
            "p1" "u1" {[ "image_url" := VNull ]} _).
  reflexivity.
Defined.

(** X15. What [updateProject] throws: a validation error before any call,
    the permission error right after the fetch, or a collaborator's error.
    A [TypeError] arises only right after the fetch, when the store answers
    without error and without a record, or when the record's [members] is
    neither an array nor missing. *)
Theorem updateProject_errors (E : env) (projectId userId : string)
    (projectData : object) (t : list event) (e : exn) :
  let fetch :=
    projects (SelectRows "*") (Some (ByEq "id" projectId)) None Single in
  exec E (updateProject projectId userId projectData) = (t, Threw e) →
  (ValidationError e ∧ t = [])
  ∨ (AuthorizationError e ∧ t = [Called fetch])
  ∨ StoreError e
  ∨ (e = TypeError ∧ t = [Called fetch]
     ∧ (E [] fetch = inr (ok None)
        ∨ ∃ existingProject,
            E [] fetch = inr (ok (Some existingProject))
            ∧ ¬ members_column (get "members" existingProject))).
Proof.
  intros fetch. unfold exec, updateProject.
  destruct (truthy (VStr projectId)), (truthy (VStr userId)); cbn;
    try (intros [= <- <-]; left; split; [|done]; unfold ValidationError;
         by auto).
  fold fetch.
  destruct (E [] fetch) as [r|[[existing|] [r|]]] eqn:Hfetch; cbn;
    try (intros [= <- <-]; right; right; left; by eexists).
  - unfold checkPermission.
    destruct (strict_eq_str _ _); cbn.
    + destruct (truthy (get "image" projectData)),
        (truthy (get "image_url" existing)); explore E;
        intros [= <- <-]; right; right; left; by eexists.
    + destruct (get "members" existing) as [| |b|hay|items|name] eqn:Hm;
        cbn;
        try (intros [= <- <-]; right; left; by split);
        try (intros [= <- <-]; right; right; right;
             split; [done|]; split; [done|]; right; exists existing;
             split; [reflexivity|]; rewrite Hm; cbn; tauto).
      * destruct (str_includes hay userId); cbn;
          [|intros [= <- <-]; right; left; by split].
        destruct (truthy (get "image" projectData)),
          (truthy (get "image_url" existing)); explore E;
          intros [= <- <-]; right; right; left; by eexists.
      * destruct (existsb _ items); cbn;
          [|intros [= <- <-]; right; left; by split].
        destruct (truthy (get "image" projectData)),
          (truthy (get "image_url" existing)); explore E;
          intros [= <- <-]; right; right; left; by eexists.
  - intros [= <- <-]. right. right. right.
    split; [done|]. split; [done|]. by left.
Qed.

Lemma updateProject_errors_witness :
  (ValidationError TypeError ∧ [Called (projects (SelectRows "*")
                                     (Some (ByEq "id" "p1")) None Single)]
                                = [])
  ∨ (AuthorizationError TypeError
     ∧ [Called (projects (SelectRows "*") (Some (ByEq "id" "p1")) None
                  Single)]
       = [Called (projects (SelectRows "*") (Some (ByEq "id" "p1")) None
                    Single)])
  ∨ StoreError TypeError
  ∨ (TypeError = TypeError
     ∧ [Called (projects (SelectRows "*") (Some (ByEq "id" "p1")) None
                  Single)]
       = [Called (projects (SelectRows "*") (Some (ByEq "id" "p1")) None
                    Single)]
     ∧ (scripted (inr "img/2") (inr tt) (ok None) (ok None) []
          (projects (SelectRows "*") (Some (ByEq "id" "p1")) None Single)
        = inr (ok None)
        ∨ ∃ existingProject,
            scripted (inr "img/2") (inr tt) (ok None) (ok None) []
              (projects (SelectRows "*") (Some (ByEq "id" "p1")) None Single)
            = inr (ok (Some existingProject))
            ∧ ¬ members_column (get "members" existingProject))).
Proof.
  refine (updateProject_errors
            (scripted (inr "img/2") (inr tt) (ok None) (ok None))
            "p1" "u1" ∅ _ TypeError _).
  reflexivity.
Defined.

(** ** deleteProject, its failures and its guard *)

(** X16. When the fetch reply of [deleteProject] carries an error, the
    error is logged with "Error fetching project for deletion:" and
    rethrown, whatever [data] the reply has: no image and no row is
    deleted. *)
Theorem deleteProject_fetch_error (E : env) (projectId : string)
    (r : store_reply) (e : remote_error) :
  let fetch :=
    projects (SelectRows "*") (Some (ByEq "id" projectId)) None MaybeSingle in
  E [] fetch = inr r → error r = Some e →
  exec E (deleteProject projectId)
    = ([Called fetch; Logged "Error fetching project for deletion:" e],
       Threw (Remote e)).
Proof.
  intros fetch Hfetch Herr. unfold exec, deleteProject. cbn.
  fold fetch. rewrite Hfetch. cbn. by rewrite Herr.
Qed.

Lemma deleteProject_fetch_error_witness :
  exec (scripted (inr "img/2") (inr tt)
          (StoreReply (Some (project_p1 (VStr "img/1")))
             (Some (RemoteError "timeout")))
          (ok None))
       (deleteProject "p1")
  = ([Called (projects (SelectRows "*") (Some (ByEq "id" "p1")) None
                MaybeSingle);
      Logged "Error fetching project for deletion:" (RemoteError "timeout")],
     Threw (Remote (RemoteError "timeout"))).
Proof.
  refine (deleteProject_fetch_error
            (scripted (inr "img/2") (inr tt)
               (StoreReply (Some (project_p1 (VStr "img/1")))
                  (Some (RemoteError "timeout")))
               (ok None))
            "p1"
            (StoreReply (Some (project_p1 (VStr "img/1")))
               (Some (RemoteError "timeout")))
            (RemoteError "timeout") _ _); reflexivity.
Defined.

(** X17. The image goes first and the row only after it: when the
    image-delete of [deleteProject] rejects, the error is rethrown (without
    a log line) and the row is not deleted; when it resolves and the row
    delete then fails, that error is logged with "Error deleting project:"
    and rethrown, the image being gone already. *)
Theorem deleteProject_partial_failure (E : env) (projectId url : string)
    (project : object) :
  let fetch :=
    projects (SelectRows "*") (Some (ByEq "id" projectId)) None MaybeSingle in
  let unlink := DeleteProjectImage (VStr url) in
  let remove := projects DeleteRows (Some (ByEq "id" projectId)) None Rows in
  E [] fetch = inr (ok (Some project)) →
  get "image_url" project = VStr url → url ≠ EmptyString →
  (∀ e, E [Called fetch] unlink = inl e →
        exec E (deleteProject projectId)
          = ([Called fetch; Called unlink], Threw (Remote e)))
  ∧ (∀ r e, E [Called fetch] unlink = inr tt →
            E [Called fetch; Called unlink] remove = inr r →
            error r = Some e →
            exec E (deleteProject projectId)
              = ([Called fetch; Called unlink; Called remove;
                  Logged "Error deleting project:" e],
                 Threw (Remote e))).
Proof.
  intros fetch unlink remove Hfetch Hurl Hne.
  apply truthy_str in Hne.
  unfold exec, deleteProject. cbn. fold fetch. rewrite Hfetch. cbn.
  rewrite Hurl, Hne. cbn. fold unlink. split.
  - intros e ->. done.
  - intros r e -> Hremove Herr. cbn. fold remove. rewrite Hremove. cbn.
    by rewrite Herr.
Qed.

Lemma deleteProject_partial_failure_witness :
  exec (scripted (inr "img/2") (inl (RemoteError "storage down"))
          (ok (Some (project_p1 (VStr "img/1")))) (ok None))
       (deleteProject "p1")
    = ([Called (projects (SelectRows "*") (Some (ByEq "id" "p1")) None
                  MaybeSingle);
        Called (DeleteProjectImage (VStr "img/1"))],
       Threw (Remote (RemoteError "storage down")))
  ∧ exec (scripted (inr "img/2") (inr tt)
            (ok (Some (project_p1 (VStr "img/1")))) (failed "row locked"))
         (deleteProject "p1")
    = ([Called (projects (SelectRows "*") (Some (ByEq "id" "p1")) None
                  MaybeSingle);
        Called (DeleteProjectImage (VStr "img/1"));
        Called (projects DeleteRows (Some (ByEq "id" "p1")) None Rows);
        Logged "Error deleting project:" (RemoteError "row locked")],
       Threw (Remote (RemoteError "row locked"))).
Proof.
  split.
  - refine (proj1 (deleteProject_partial_failure
                     (scripted (inr "img/2") (inl (RemoteError "storage down"))
                        (ok (Some (project_p1 (VStr "img/1")))) (ok None))
                     "p1" "img/1" (project_p1 (VStr "img/1")) _ _ _)
              (RemoteError "storage down") _);
      first [reflexivity | discriminate].
  - refine (proj2 (deleteProject_partial_failure
                     (scripted (inr "img/2") (inr tt)
                        (ok (Some (project_p1 (VStr "img/1"))))
                        (failed "row locked"))
                     "p1" "img/1" (project_p1 (VStr "img/1")) _ _ _)
              (failed "row locked") (RemoteError "row locked") _ _ _);
      first [reflexivity | discriminate].
Defined.

(** X18. [deleteProject] hands [image_url] to the image helper only when it
    is a non-empty string: for an empty string, or a truthy value that is
    not a string, no image-delete is awaited and the row delete follows the
    fetch directly. *)
Theorem deleteProject_image_guard (E : env) (projectId : string)
    (project : object) :
  let fetch :=
    projects (SelectRows "*") (Some (ByEq "id" projectId)) None MaybeSingle in
  let remove := projects DeleteRows (Some (ByEq "id" projectId)) None Rows in
  E [] fetch = inr (ok (Some project)) →
  (∀ url, get "image_url" project = VStr url → url = EmptyString) →
  ∃ t o, exec E (deleteProject projectId)
           = (Called fetch :: Called remove :: t, o)
         ∧ image_deletes (Called fetch :: Called remove :: t) = [].
Proof.
  intros fetch remove Hfetch Hguard.
  unfold exec, deleteProject. cbn. fold fetch. rewrite Hfetch. cbn.
  assert (truthy (get "image_url" project)
          && is_string (get "image_url" project) = false) as ->.
  { destruct (get "image_url" project) as [| |b|url| |]; cbn;
      rewrite ?andb_false_r; try done.
    by rewrite (Hguard url eq_refl). }
  cbn. fold remove.
  destruct (E [Called fetch] remove) as [e|[d [e|]]]; cbn;
    by eexists _, _.
Qed.

Lemma deleteProject_image_guard_witness :
  ∃ t o, exec (scripted (inr "img/2") (inr tt)
                 (ok (Some (project_p1 (VArr [VStr "img/1"])))) (ok None))
              (deleteProject "p1")
           = (Called (projects (SelectRows "*") (Some (ByEq "id" "p1")) None
                        MaybeSingle)
              :: Called (projects DeleteRows (Some (ByEq "id" "p1")) None
                           Rows)
              :: t, o)
         ∧ image_deletes
             (Called (projects (SelectRows "*") (Some (ByEq "id" "p1")) None
                        MaybeSingle)
              :: Called (projects DeleteRows (Some (ByEq "id" "p1")) None
                           Rows)
              :: t) = [].
Proof.
  refine (deleteProject_image_guard
            (scripted (inr "img/2") (inr tt)
               (ok (Some (project_p1 (VArr [VStr "img/1"])))) (ok None))
            "p1" (project_p1 (VArr [VStr "img/1"])) _ _).
  - reflexivity.
  - intros url Hurl. vm_compute in Hurl. discriminate.
Defined.

(** X19. Every run of [deleteProject] starts with the fetch of the row
    [id = projectId] and issues at most one more store call, the delete of
    that row: it never inserts or updates, and an empty [projectId] is not
    rejected before the store is asked. *)
Theorem deleteProject_queries (E : env) (projectId : string) :
  let fetch := Query "projects" (SelectRows "*")
                 (Some (ByEq "id" projectId)) None MaybeSingle in
  let remove := Query "projects" DeleteRows
                  (Some (ByEq "id" projectId)) None Rows in
  let t := (exec E (deleteProject projectId)).1 in
  queries t = [fetch] ∨ queries t = [fetch; remove].
Proof.
  intros fetch remove t. subst t. unfold exec, deleteProject. cbn.
  destruct (E [] _) as [e|[d [e|]]]; cbn; auto.
  destruct d as [project|]; cbn.
  - destruct (truthy _ && is_string _); explore E; auto.
  - explore E; auto.
Qed.

(** X20. [deleteProject] throws nothing of its own: every failure is a
    collaborator's error.  It logs at most one line, and the error it logs
    is the one it throws; a run that returns has logged nothing. *)
Theorem deleteProject_errors_logged (E : env) (projectId : string) :
  let t := (exec E (deleteProject projectId)).1 in
  match (exec E (deleteProject projectId)).2 with
  | Returned _ => logs t = []
  | Threw e =>
      ∃ r, e = Remote r ∧ (logs t = [] ∨ ∃ message, logs t = [(message, r)])
  end.
Proof.
  intros t. subst t. unfold exec, deleteProject. cbn.
  assert (∀ (r : remote_error) (l : list (string * remote_error)),
            l = [] ∨ (∃ message, l = [(message, r)]) →
            ∃ r', Remote r = Remote r'
                  ∧ (l = [] ∨ ∃ message, l = [(message, r')])) as Hthrown.
  { intros r l Hl. by exists r. }
  destruct (E [] _) as [e|[d [e|]]]; cbn;
    try (apply Hthrown; cbn; by eauto).
  destruct d as [project|]; cbn.
  - destruct (truthy _ && is_string _); explore E;
      try done; apply Hthrown; cbn; by eauto.
  - explore E; try done; apply Hthrown; cbn; by eauto.
Qed.
